(** * PhysiCell Studio (micro): the binary download script and the VTK viewer

  A shallow embedding of [download_binary.py] and of
  [studio/bin/vtk_view.py], with the properties their specification states.

  - [Py]: the pieces of the Python runtime both programs rely on
    (exceptions, list indexing, string methods, [int()] of a float).
  - [DownloadBinary]: the module-level script, as a state-and-exit monad
    over the console, the script's directory and the log of HTTP requests.
  - [VtkView]: the class [PhysiCellVTKView], as a state-and-exception monad
    over the object's attributes and a trace of its external effects. *)

From Stdlib Require Import ZArith String Ascii List Floats.
From stdpp Require Import base option list gmap strings pretty.

Set Warnings "-inexact-float".
Local Open Scope string_scope.
Local Open Scope Z_scope.

(* ===================================================================== *)
(** * Python runtime *)
(* ===================================================================== *)

Module Py.

(** Exception classes that occur in the two programs.  [SystemExit] and
    [KeyboardInterrupt] derive from [BaseException] only, so that
    [except Exception] lets them through. *)
Inductive exn_class :=
| AttributeError | IndexError | KeyError | ValueError | OverflowError
| FileNotFoundError | PermissionError | URLError | ReadError
| ZeroDivisionError | OtherException
| SystemExit | KeyboardInterrupt.

Record exn := Exn { exn_cls : exn_class; exn_msg : string }.

Definition is_Exception (e : exn) : bool :=
  match exn_cls e with
  | SystemExit | KeyboardInterrupt => false
  | _ => true
  end.

(** A value or a raised exception. *)
Inductive result (A : Type) :=
| Ret (a : A)
| Raise (e : exn).
Arguments Ret {A} a.
Arguments Raise {A} e.

Definition rbind {A B} (r : result A) (k : A -> result B) : result B :=
  match r with
  | Ret a => k a
  | Raise e => Raise e
  end.

(** [l[i]] on a list: a negative index counts from the end, anything out
    of [-len, len) raises [IndexError]. *)
Definition getitem {A} (l : list A) (i : Z) : result A :=
  let n := Z.of_nat (length l) in
  let j := if i <? 0 then n + i else i in
  if (0 <=? j) && (j <? n)
  then match l !! Z.to_nat j with
       | Some x => Ret x
       | None => Raise (Exn IndexError "list index out of range")
       end
  else Raise (Exn IndexError "list index out of range").

(** [str.lower()], on the ASCII letters. *)
Definition lower_ascii (c : ascii) : ascii :=
  let n := nat_of_ascii c in
  if (65 <=? n)%nat && (n <=? 90)%nat then ascii_of_nat (n + 32) else c.

Fixpoint lower (s : string) : string :=
  match s with
  | EmptyString => EmptyString
  | String c s' => String (lower_ascii c) (lower s')
  end.

Definition startswith (s p : string) : bool := String.prefix p s.

Definition endswith (s p : string) : bool :=
  let n := String.length s in
  let k := String.length p in
  (k <=? n)%nat && String.eqb (String.substring (n - k) k s) p.

(** [sep.join(xs)] *)
Fixpoint join (sep : string) (xs : list string) : string :=
  match xs with
  | [] => ""
  | [x] => x
  | x :: rest => x ++ sep ++ join sep rest
  end.

(** [str(n)] for an integer. *)
Definition str_of_int (n : Z) : string := pretty n.

Fixpoint zeros (k : nat) : string :=
  match k with
  | O => ""
  | S k' => String "0" (zeros k')
  end.

(** The format [{n:08d}]: sign first, then zeros up to a width of 8. *)
Definition fmt_08d (n : Z) : string :=
  let digits := pretty (Z.abs n) in
  let sign := if n <? 0 then "-" else "" in
  let used := (String.length sign + String.length digits)%nat in
  sign ++ zeros (8 - used) ++ digits.

(** [os.path.join(a, b)] with the POSIX separator. *)
Definition path_join (a b : string) : string :=
  if startswith b "/" then b
  else if String.eqb a "" || endswith a "/" then a ++ b
  else a ++ "/" ++ b.

(** [int(x)] of a float: truncation towards zero; NaN and the infinities
    raise. *)
Definition int_of_float (x : float) : result Z :=
  match Prim2SF x with
  | S754_zero _ => Ret 0
  | S754_infinity _ =>
      Raise (Exn OverflowError "cannot convert float infinity to integer")
  | S754_nan => Raise (Exn ValueError "cannot convert float NaN to integer")
  | S754_finite s m e =>
      let a := if 0 <=? e then Z.pos m * 2 ^ e else Z.pos m / 2 ^ (- e) in
      Ret (if s then - a else a)
  end.

Definition Z2SF (n : Z) : spec_float :=
  match n with
  | Z0 => S754_zero false
  | Zpos p => S754_finite false p 0
  | Zneg p => S754_finite true p 0
  end.

(** [a / b] on two integers: the correctly rounded quotient. *)
Definition int_truediv (a b : Z) : result float :=
  if b =? 0 then Raise (Exn ZeroDivisionError "division by zero")
  else Ret (SF2Prim (SFdiv prec emax (Z2SF a) (Z2SF b))).

(** The conversion of an integer operand in mixed arithmetic. *)
Definition float_of_int (n : Z) : result float :=
  let f := SF2Prim (binary_normalize prec emax n 0 false) in
  if PrimFloat.is_infinity f
  then Raise (Exn OverflowError "int too large to convert to float")
  else Ret f.

End Py.

(* ===================================================================== *)
(** * download_binary.py *)
(* ===================================================================== *)

Module DownloadBinary.
Import Py.

Definition physicell_version := "1.14.2".
Definition repo_physicell := "MathCancer/PhysiCell".
Definition physiboss_version := "v2.2.3".
Definition repo_physiboss := "sysbio-curie/PhysiBoSS".

Definition physiboss_release : string :=
  "https://github.com/" ++ repo_physiboss ++ "/releases/download/"
    ++ physiboss_version ++ "/".
Definition physicell_release : string :=
  "https://github.com/" ++ repo_physicell ++ "/releases/download/"
    ++ physicell_version ++ "/".

(** The dict [list_models], in insertion order (the order in which
    [print_usage] lists the keys). *)
Definition list_models : list (string * string) :=
  [ ("physiboss-tutorial", physiboss_release);
    ("physiboss-tutorial-invasion", physiboss_release);
    ("physiboss-cell-lines", physiboss_release);
    ("template_BM", physiboss_release);
    ("template", physicell_release);
    ("rules", physicell_release);
    ("physimess", physicell_release);
    ("interaction", physicell_release) ].

Definition keys (d : list (string * string)) : list string := map fst d.

(** [d[k]] on the dict. *)
Fixpoint lookup_model (d : list (string * string)) (k : string)
  : option string :=
  match d with
  | [] => None
  | (k', v) :: rest => if String.eqb k k' then Some v else lookup_model rest k
  end.

(** [k in xs] on a list of strings. *)
Definition str_in (k : string) (xs : list string) : bool :=
  existsb (String.eqb k) xs.

(** ** Files, archives and the machine the script runs on *)

(** One member of a tar archive, with its permission bits.  The script
    itself reads nothing of a member but its name ([tar.getnames()]). *)
Record member := Member { m_name : string; m_data : string; m_mode : Z }.

Inductive content :=
| Raw (bytes : string)
| TarGz (members : list member).

Record file := File { f_data : content; f_mode : Z }.

(** The script's own directory ([dir_name], which [os.chdir] makes the
    working directory), the lines printed so far, and the URLs requested
    so far. *)
Record host := Host {
  stdout : list string;
  disk : gmap string file;
  requests : list string
}.

(** What the script reads from its surroundings: [sys.argv],
    [platform.system()], the directory of the script file, for every URL
    what the server answers ([None]: the request fails), and the archive
    library: [extract ms name d] is what [tar.extract(name)] does, for an
    open archive with the members [ms], to the working directory [d]: how
    it ends and the directory it leaves.  Which member it picks, where the
    member's name leads ([./project] is [project]), what it does with a
    directory member, and when it refuses to write (a target without
    owner-write bit) is the library's business and not fixed here. *)
Record env := Env {
  argv : list string;
  os_type : string;
  dir_name : string;
  server : string -> option content;
  extract : list member -> string -> gmap string file
            -> result unit * gmap string file
}.

(** How a step ends: it goes on with a value, the interpreter exits with a
    status, or an exception is in flight. *)
Inductive outcome (A : Type) :=
| Ok (a : A)
| Exit (code : Z)
| Uncaught (e : exn).
Arguments Ok {A} a.
Arguments Exit {A} code.
Arguments Uncaught {A} e.

Definition script (A : Type) : Type := host -> outcome A * host.

Definition ret {A} (a : A) : script A := fun h => (Ok a, h).

Definition bind {A B} (m : script A) (k : A -> script B) : script B :=
  fun h =>
    match m h with
    | (Ok a, h') => k a h'
    | (Exit c, h') => (Exit c, h')
    | (Uncaught e, h') => (Uncaught e, h')
    end.

Declare Scope script_scope.
Delimit Scope script_scope with script.
Notation "x <- m ;; k" := (bind m (fun x => k))
  (at level 100, m at next level, right associativity) : script_scope.
Notation "m ;; k" := (bind m (fun _ => k))
  (at level 100, right associativity) : script_scope.
Local Open Scope script_scope.

Definition exit {A} (code : Z) : script A := fun h => (Exit code, h).
Definition raise {A} (e : exn) : script A := fun h => (Uncaught e, h).

(** [print(s)]: one entry of [stdout] per call. *)
Definition print (s : string) : script unit :=
  fun h => (Ok tt, Host (stdout h ++ [s]) (disk h) (requests h)).

(** [print(a, b)]: the two arguments separated by one space. *)
Definition print2 (a b : string) : script unit := print (a ++ " " ++ b).

Definition get_disk : script (gmap string file) := fun h => (Ok (disk h), h).

Definition set_disk (d : gmap string file) : script unit :=
  fun h => (Ok tt, Host (stdout h) d (requests h)).

Definition log_request (u : string) : script unit :=
  fun h => (Ok tt, Host (stdout h) (disk h) (requests h ++ [u])).

(** A bare [try: ... except: ...]: whatever the body raises, [SystemExit]
    included, runs the handler. *)
Definition try_except {A} (body handler : script A) : script A :=
  fun h =>
    match body h with
    | (Ok a, h') => (Ok a, h')
    | (Exit _, h') => handler h'
    | (Uncaught _, h') => handler h'
    end.

(** ** The script, top to bottom *)

Definition usage_lines : list string :=
  [ "Usage : python download_binary.py <model>";
    "";
    "Models available : " ++ join ", " (keys list_models) ].

Definition print_usage : script unit :=
  print "Usage : python download_binary.py <model>" ;;
  print "" ;;
  print ("Models available : " ++ join ", " (keys list_models)).

(** Lines 34-43: the model named on the command line, or the default. *)
Definition choose_model (args : list string) : script string :=
  if (length args <? 2)%nat then
    print_usage ;;
    ret "template_BM"
  else
    match args !! 1%nat with
    | Some a => print2 "model = " a ;; ret a
    | None => raise (Exn IndexError "list index out of range")
    end.

(** Lines 46-48. *)
Definition check_model (model : string) : script unit :=
  if str_in model ["-h"; "--help"] || negb (str_in model (keys list_models))
  then print_usage ;; exit 1
  else ret tt.

Definition unsupported_message : string :=
  "Your operating system seems to be unsupported. Please create an new issue at https://github.com/PhysiBoSS/PhysiBoSS/issues/ ".

(** Lines 55-64: the archive name for this platform. *)
Definition platform_file (model os : string) : script string :=
  if String.eqb (lower os) "darwin" then
    ret (model ++ "-macos.tar.gz")
  else if startswith (lower os) "win" || startswith (lower os) "msys_nt"
          || startswith (lower os) "mingw64_nt" then
    ret (model ++ "-win.tar.gz")
  else if startswith (lower os) "linux" then
    ret (model ++ "-linux.tar.gz")
  else
    print unsupported_message ;;
    exit 1.

(** Line 66: [list_models[model] + mb_file]. *)
Definition make_url (model mb_file : string) : script string :=
  match lookup_model list_models model with
  | Some base => ret (base ++ mb_file)
  | None => raise (Exn KeyError model)
  end.

(** Lines 34-50: the model the script goes on with. *)
Definition select_model (args : list string) : script string :=
  model <- choose_model args ;;
  check_model model ;;
  print2 "> Chosen model: " model ;;
  ret model.

(** Lines 52-74: the archive name [mb_file] and the [url] for this
    platform. *)
Definition locate (e : env) (model : string) : script (string * string) :=
  print2 "> Operating system: " (os_type e) ;;
  mb_file <- platform_file model (os_type e) ;;
  url <- make_url model mb_file ;;
  print2 "> Downloading from: " url ;;
  print2 "> Loading into directory: " (dir_name e) ;;
  print2 "> File: " (path_join (dir_name e) mb_file) ;;
  ret (mb_file, url).

(** A file the script creates gets these permission bits (umask 022). *)
Definition new_file_mode : Z := 420.

(** Line 88: [urllib.request.urlretrieve(url, my_file, download_cb)].
    One request; a failed request raises, a served body is written to
    [my_file] whatever it is.  A file already under that name is taken to
    be writable by the user (on one that is not, the library raises
    [PermissionError] instead).  The progress lines of [download_cb] go
    to stderr, which [host] does not record. *)
Definition urlretrieve (e : env) (url mb_file : string) : script unit :=
  log_request url ;;
  match server e url with
  | None => raise (Exn URLError url)
  | Some body =>
      d <- get_disk ;;
      let mode := match d !! mb_file with
                  | Some old => f_mode old
                  | None => new_file_mode
                  end in
      set_disk (<[mb_file := File body mode]> d)
  end.

(** [tarfile.open(name)] followed by [getmembers()]. *)
Definition tarfile_open (name : string) : script (list member) :=
  d <- get_disk ;;
  match d !! name with
  | None => raise (Exn FileNotFoundError name)
  | Some (File (Raw _) _) => raise (Exn ReadError "file could not be opened successfully")
  | Some (File (TarGz ms) _) => ret ms
  end.

(** [tar.getmember(name)]: the last member with that name. *)
Definition getmember (ms : list member) (name : string) : option member :=
  find (fun m => String.eqb (m_name m) name) (rev ms).

(** [tar.extract(name)]: the library's call, on the working directory. *)
Definition tar_extract (e : env) (ms : list member) (name : string)
  : script unit :=
  d <- get_disk ;;
  let r := extract e ms name d in
  set_disk r.2 ;;
  match r.1 with
  | Ret _ => ret tt
  | Raise x => raise x
  end.

(** The file a regular member unpacks to. *)
Definition extracted (m : member) : file := File (Raw (m_data m)) (m_mode m).

(** The name of a member without leading [./]. *)
Fixpoint strip_dot_slash (fuel : nat) (name : string) : string :=
  match fuel with
  | O => name
  | S fuel' =>
      if startswith name "./"
      then strip_dot_slash fuel'
             (String.substring 2 (String.length name - 2) name)
      else name
  end.

(** Bit 7 of the mode ([stat.S_IWUSR]): the owner may write the file. *)
Definition owner_write (f : file) : bool := Z.testbit (f_mode f) 7.

(** Nothing lies under [p], or a file its owner may write. *)
Definition overwritable (d : gmap string file) (p : string) : bool :=
  match d !! p with
  | Some old => owner_write old
  | None => true
  end.

(** An archive library for archives of regular files that lie directly
    in the archive's root: the last member of the given name is written
    under its name, unless a file without owner-write bit is in the way. *)
Definition plain_extract (ms : list member) (name : string)
           (d : gmap string file) : result unit * gmap string file :=
  match getmember ms name with
  | None => (Raise (Exn KeyError name), d)
  | Some m =>
      let key := strip_dot_slash (String.length (m_name m)) (m_name m) in
      if overwritable d key then (Ret tt, <[key := extracted m]> d)
      else (Raise (Exn PermissionError key), d)
  end.

(** [os.remove(name)] *)
Definition os_remove (name : string) : script unit :=
  d <- get_disk ;;
  match d !! name with
  | None => raise (Exn FileNotFoundError name)
  | Some _ => set_disk (delete name d)
  end.

Definition newline : string := String (ascii_of_nat 10) "".

(** Lines 101-126: the [try] block and its handler. *)
Definition untar (e : env) (mb_file : string) : script unit :=
  try_except
    (ms <- tarfile_open mb_file ;;
     match map m_name ms !! 0%nat with
     | None => raise (Exn IndexError "list index out of range")
     | Some binary_name =>
         print ("binary_name = " ++ binary_name ++ newline) ;;
         tar_extract e ms binary_name ;;
         os_remove mb_file
     end)
    (print "! Error untarring the file" ;;
     exit 1).

(** Line 128. *)
Definition new_name (mb_file : string) : string :=
  if negb (endswith mb_file "win.tar.gz") then "project" else "project.exe".

Definition S_IEXEC : Z := 64.

(** Lines 130-131: [os.stat] then [os.chmod]. *)
Definition make_executable (mb_file : string) : script unit :=
  d <- get_disk ;;
  match d !! new_name mb_file with
  | None => raise (Exn FileNotFoundError (new_name mb_file))
  | Some f =>
      set_disk (<[new_name mb_file := File (f_data f) (Z.lor (f_mode f) S_IEXEC)]> d)
  end.

(** Lines 88-126: download, unpack, delete the archive. *)
Definition fetch_and_untar (e : env) (mb_file url : string) : script unit :=
  urlretrieve e url mb_file ;;
  print "> Uncompressing the model" ;;
  untar e mb_file.

(** Lines 52-131 for a model that passed the checks. *)
Definition install (e : env) (model : string) : script unit :=
  r <- locate e model ;;
  fetch_and_untar e r.1 r.2 ;;
  make_executable r.1.

(** The whole script. *)
Definition main (e : env) : script unit :=
  model <- select_model (argv e) ;;
  install e model.

(** The machine after some more lines were printed. *)
Definition printed (lines : list string) (h : host) : host :=
  Host (stdout h ++ lines) (disk h) (requests h).

Definition with_disk (d : gmap string file) (h : host) : host :=
  Host (stdout h) d (requests h).

(** The lines [locate] prints on a supported platform. *)
Definition locate_lines (e : env) (mb_file url : string) : list string :=
  [ "> Operating system: " ++ " " ++ os_type e;
    "> Downloading from: " ++ " " ++ url;
    "> Loading into directory: " ++ " " ++ dir_name e;
    "> File: " ++ " " ++ path_join (dir_name e) mb_file ].

(** The mode under which [urlretrieve] leaves the archive. *)
Definition archive_mode (d : gmap string file) (mb_file : string) : Z :=
  match d !! mb_file with
  | Some old => f_mode old
  | None => new_file_mode
  end.

(** The file [os.chmod] leaves behind. *)
Definition executable (f : file) : file :=
  File (f_data f) (Z.lor (f_mode f) S_IEXEC).

(** A step that only prints: its outcome and its lines do not depend on
    the machine, which it leaves as it was apart from [stdout]. *)
Definition console_only {A} (m : script A) : Prop :=
  exists o lines, forall h, m h = (o, printed lines h).

(** The two release directories the entries of [list_models] point to. *)
Definition release_urls : list string := [physiboss_release; physicell_release].

(** The three archive suffixes. *)
Definition suffixes : list string :=
  ["-macos.tar.gz"; "-win.tar.gz"; "-linux.tar.gz"].

End DownloadBinary.

(* ===================================================================== *)
(** * studio/bin/vtk_view.py *)
(* ===================================================================== *)

Module VtkView.
Import Py.

(** ** The simulation output, as the external parser hands it over *)

(** One row of the data frame [mcds.get_cell_df()].  [cell_type] is the
    column after [.astype(int)]. *)
Record cell := Cell {
  position_x : float;
  position_y : float;
  position_z : float;
  total_volume : float;
  cell_type : Z
}.

Record cell_df := CellDf {
  has_position_z : bool;        (* ['position_z' in cell_df.columns] *)
  rows : list cell
}.

Record mcds := MCDS { get_cell_df : cell_df; get_time : float }.

(** What lies outside the module: the file system seen through
    [os.path.exists], the parser [pyMCDS_cells(root, dir, ...)], which
    may raise, and numpy's [power]. *)
Record world := World {
  path_exists : string -> bool;
  pyMCDS_cells : string -> string -> result mcds;
  np_power : float -> float -> float
}.

(** ** The scene and the viewer object *)

Definition rgb : Type := float * float * float.

Inductive view_prop :=
| TextActor (input : string) (font_size : Z) (color : rgb) (position : Z * Z)
| SphereActor (center : Z * Z * Z) (radius : Z) (phi theta : Z) (color : rgb)
| GlyphActor (points : list (float * float * float))
             (colors : list (Z * Z * Z)) (sizes : list float).

Record renderer_t := Renderer {
  props : list view_prop;
  background : option rgb
}.

Record render_window := RenderWindow { window_name : option string }.

Record qt_window_t := QtWindow { title : string; shown : bool }.

Record timer := Timer { interval : Z; active : bool }.

(** Effects that leave the object: console lines, file-system probes,
    parser runs, and renders. *)
Inductive event :=
| Console (line : string)
| PathExists (path : string)
| ReadOutput (xml_file_root dir : string)
| Render.

(** The attributes of a [PhysiCellVTKView].  [qt_window] and [vtk_widget]
    do not exist before [open_window] ([hasattr] is false); the other
    VTK attributes start as [None]. *)
Record viewer := Viewer {
  output_dir : string;
  current_frame : Z;
  cell_colors : list (list float);
  qt_window : option qt_window_t;
  vtk_widget : bool;
  vtk_win : option render_window;
  renderer : option renderer_t;
  interactor : bool;
  update_timer : option timer;
  trace : list event
}.

Definition set_current_frame_attr (n : Z) (v : viewer) : viewer :=
  Viewer (output_dir v) n (cell_colors v) (qt_window v) (vtk_widget v)
         (vtk_win v) (renderer v) (interactor v) (update_timer v) (trace v).
Definition set_qt_window (q : option qt_window_t) (v : viewer) : viewer :=
  Viewer (output_dir v) (current_frame v) (cell_colors v) q (vtk_widget v)
         (vtk_win v) (renderer v) (interactor v) (update_timer v) (trace v).
Definition set_vtk_widget (b : bool) (v : viewer) : viewer :=
  Viewer (output_dir v) (current_frame v) (cell_colors v) (qt_window v) b
         (vtk_win v) (renderer v) (interactor v) (update_timer v) (trace v).
Definition set_vtk_win (w : option render_window) (v : viewer) : viewer :=
  Viewer (output_dir v) (current_frame v) (cell_colors v) (qt_window v)
         (vtk_widget v) w (renderer v) (interactor v) (update_timer v)
         (trace v).
Definition set_renderer (r : option renderer_t) (v : viewer) : viewer :=
  Viewer (output_dir v) (current_frame v) (cell_colors v) (qt_window v)
         (vtk_widget v) (vtk_win v) r (interactor v) (update_timer v)
         (trace v).
Definition set_interactor (b : bool) (v : viewer) : viewer :=
  Viewer (output_dir v) (current_frame v) (cell_colors v) (qt_window v)
         (vtk_widget v) (vtk_win v) (renderer v) b (update_timer v)
         (trace v).
Definition set_update_timer (t : option timer) (v : viewer) : viewer :=
  Viewer (output_dir v) (current_frame v) (cell_colors v) (qt_window v)
         (vtk_widget v) (vtk_win v) (renderer v) (interactor v) t (trace v).
Definition emit (e : event) (v : viewer) : viewer :=
  Viewer (output_dir v) (current_frame v) (cell_colors v) (qt_window v)
         (vtk_widget v) (vtk_win v) (renderer v) (interactor v)
         (update_timer v) (trace v ++ [e]).

(** ** Methods as state transformers that may raise *)

Definition method (A : Type) : Type := viewer -> result A * viewer.

Definition ret {A} (a : A) : method A := fun v => (Ret a, v).

Definition bind {A B} (m : method A) (k : A -> method B) : method B :=
  fun v =>
    match m v with
    | (Ret a, v') => k a v'
    | (Raise e, v') => (Raise e, v')
    end.

Declare Scope method_scope.
Delimit Scope method_scope with method.
Notation "x <- m ;; k" := (bind m (fun x => k))
  (at level 100, m at next level, right associativity) : method_scope.
Notation "m ;; k" := (bind m (fun _ => k))
  (at level 100, right associativity) : method_scope.
Local Open Scope method_scope.

Definition raise {A} (e : exn) : method A := fun v => (Raise e, v).

(** A pure computation that may raise, run inside a method. *)
Definition lift {A} (r : result A) : method A := fun v => (r, v).

Definition self : method viewer := fun v => (Ret v, v).

Definition modify (f : viewer -> viewer) : method unit :=
  fun v => (Ret tt, f v).

(** [try: body except Exception as e: handler(e)] *)
Definition try_except {A} (body : method A) (handler : exn -> method A)
  : method A :=
  fun v =>
    match body v with
    | (Ret a, v') => (Ret a, v')
    | (Raise e, v') =>
        if is_Exception e then handler e v' else (Raise e, v')
    end.

Definition print (s : string) : method unit := modify (emit (Console s)).

(** An attribute access on [None]. *)
Definition none_has_no (attr : string) : exn :=
  Exn AttributeError
      ("'NoneType' object has no attribute '" ++ attr ++ "'").

(** [self.renderer.RemoveAllViewProps()] *)
Definition RemoveAllViewProps : method unit :=
  fun v =>
    match renderer v with
    | None => (Raise (none_has_no "RemoveAllViewProps"), v)
    | Some r => (Ret tt, set_renderer (Some (Renderer [] (background r))) v)
    end.

Definition add_prop (attr : string) (p : view_prop) : method unit :=
  fun v =>
    match renderer v with
    | None => (Raise (none_has_no attr), v)
    | Some r =>
        (Ret tt, set_renderer (Some (Renderer (props r ++ [p]) (background r))) v)
    end.

(** [self.renderer.AddActor(a)] and [self.renderer.AddActor2D(a)] *)
Definition AddActor : view_prop -> method unit := add_prop "AddActor".
Definition AddActor2D : view_prop -> method unit := add_prop "AddActor2D".

Definition SetBackground (c : rgb) : method unit :=
  fun v =>
    match renderer v with
    | None => (Raise (none_has_no "SetBackground"), v)
    | Some r => (Ret tt, set_renderer (Some (Renderer (props r) (Some c))) v)
    end.

Definition white : rgb := (1, 1, 1)%float.
Definition yellow : rgb := (1, 1, 0)%float.
Definition light_red : rgb := (1, 0.5, 0.5)%float.
Definition red : rgb := (1, 0, 0)%float.
Definition dark_blue : rgb := (0.1, 0.2, 0.3)%float.

(** [__init__] *)
Definition init (output_dir : string) (current_frame : Z)
           (cell_colors : option (list (list float))) : viewer :=
  Viewer output_dir current_frame
         (match cell_colors with
          | Some (c :: cs) => c :: cs
          | _ => []
          end)
         None false None None false None [].

(** [add_orientation_axes]: the axes actor and its marker widget are
    locals of the method; no attribute of the viewer and nothing of the
    renderer's prop list changes. *)
Definition add_orientation_axes : method unit := ret tt.

(** [add_frame_info_text] *)
Definition add_frame_info_text : method unit :=
  v <- self ;;
  AddActor2D (TextActor ("CURRENT FRAME: " ++ str_of_int (current_frame v))
                        24 yellow (100, 30)).

(** [add_error_text] *)
Definition add_error_text (error_msg : string) : method unit :=
  AddActor2D (TextActor ("Error loading data: " ++ error_msg)
                        16 light_red (20, 100)).

(** [create_demo_sphere] *)
Definition create_demo_sphere : method unit :=
  AddActor (SphereActor (0, 0, 0) 50 30 30 red).

(** ** Colour and size of one cell *)

Definition default_gray : Z * Z * Z := (180, 180, 180).

(** [int(color[k] * 255)] for k = 0, 1, 2. *)
Definition rgb255 (color : list float) : result (Z * Z * Z) :=
  rbind (getitem color 0) (fun c0 =>
  rbind (int_of_float (c0 * 255)%float) (fun r =>
  rbind (getitem color 1) (fun c1 =>
  rbind (int_of_float (c1 * 255)%float) (fun g =>
  rbind (getitem color 2) (fun c2 =>
  rbind (int_of_float (c2 * 255)%float) (fun b =>
  Ret (r, g, b))))))).

(** Lines 179-186: the colour of a cell of type [ct]. *)
Definition cell_color (cell_colors : list (list float)) (ct : Z)
  : result (Z * Z * Z) :=
  if ct <? Z.of_nat (length cell_colors) then
    rbind (getitem cell_colors ct) rgb255
  else
    Ret default_gray.

Definition four_thirds_pi : float := 4.188790204786391%float.
Definition one_third : float :=
  0.333333333333333333333333333333333333333%float.

(** ** What the VTK arrays hold *)

(** A component of the [vtkUnsignedCharArray] [colors]: the number handed
    to [InsertNextTuple3] is cast to an unsigned char, which keeps it
    modulo 256. *)
Definition uchar (n : Z) : Z := n mod 256.

Definition uchar3 (col : Z * Z * Z) : Z * Z * Z :=
  (uchar col.1.1, uchar col.1.2, uchar col.2).

(** A coordinate of [vtkPoints] and a value of the [vtkFloatArray]
    [sizes]: the double is rounded to the nearest binary32 number (to
    an infinity beyond that range); zeros, infinities and NaN pass. *)
Definition to_float32 (x : float) : float :=
  match Prim2SF x with
  | S754_finite s m e => SF2Prim (binary_round 24 128 s m e)
  | _ => x
  end.

(** The three arrays handed to the glyph filter. *)
Record glyph_data := GlyphData {
  g_points : list (float * float * float);
  g_colors : list (Z * Z * Z);
  g_sizes : list float
}.

(** [points.InsertNextPoint(x, y, z)] *)
Definition InsertNextPoint (x y z : float) (g : glyph_data) : glyph_data :=
  GlyphData (g_points g ++ [(to_float32 x, to_float32 y, to_float32 z)])
            (g_colors g) (g_sizes g).

(** [colors.InsertNextTuple3(r, g, b)] *)
Definition InsertNextTuple3 (col : Z * Z * Z) (g : glyph_data) : glyph_data :=
  GlyphData (g_points g) (g_colors g ++ [uchar3 col]) (g_sizes g).

(** [sizes.InsertNextValue(x)] *)
Definition InsertNextValue (x : float) (g : glyph_data) : glyph_data :=
  GlyphData (g_points g) (g_colors g) (g_sizes g ++ [to_float32 x]).

(** Lines 175-189: the loop over the cells.  Each entry of [cells] is a
    row together with the z coordinate and the radius computed for it
    before the loop. *)
Fixpoint fill_arrays (cell_colors : list (list float))
         (cells : list (cell * float * float)) (g : glyph_data)
  : result glyph_data :=
  match cells with
  | [] => Ret g
  | (c, z, radius) :: rest =>
      let g1 := InsertNextPoint (position_x c) (position_y c) z g in
      rbind (cell_color cell_colors (cell_type c)) (fun col =>
      fill_arrays cell_colors rest
        (InsertNextValue radius (InsertNextTuple3 col g1)))
  end.

(** Lines 224-227. *)
Definition time_str (mins : float) : result string :=
  rbind (int_of_float (mins / 60)%float) (fun hrs =>
  rbind (int_truediv hrs 24) (fun q =>
  rbind (int_of_float q) (fun days =>
  rbind (float_of_int (hrs * 60)) (fun f =>
  rbind (int_of_float (mins - f)%float) (fun m =>
  Ret (str_of_int days ++ "d, " ++ str_of_int (hrs - days * 24) ++ "h, "
         ++ str_of_int m ++ "m")))))).

Section Methods.

Variable W : world.

(** [os.path.exists(p)] *)
Definition exists_ (p : string) : method bool :=
  fun v => (Ret (path_exists W p), emit (PathExists p) v).

(** [pyMCDS_cells(root, self.output_dir, ...)] *)
Definition read_output (xml_file_root : string) : method mcds :=
  fun v =>
    (pyMCDS_cells W xml_file_root (output_dir v),
     emit (ReadOutput xml_file_root (output_dir v)) v).

(** Lines 153-156: [np.power(np.divide(cell_vols, four_thirds_pi), 1/3)]
    for one entry. *)
Definition cell_radius (c : cell) : float :=
  np_power W (total_volume c / four_thirds_pi)%float one_third.

(** The per-cell inputs of the loop: [positions_z] is the column when
    it is there and zeros otherwise. *)
Definition loop_input (df : cell_df) : list (cell * float * float) :=
  map (fun c =>
         (c,
          if has_position_z df then position_z c else 0%float,
          cell_radius c))
      (rows df).

(** [load_and_display_cells] *)
Definition load_and_display_cells (xml_file_root : string) : method unit :=
  m <- read_output xml_file_root ;;
  let df := get_cell_df m in
  let num_cells := length (rows df) in
  v <- self ;;
  g <- lift (fill_arrays (cell_colors v) (loop_input df)
                         (GlyphData [] [] [])) ;;
  AddActor (GlyphActor (g_points g) (g_colors g) (g_sizes g)) ;;
  ts <- lift (time_str (get_time m)) ;;
  AddActor2D (TextActor ("FILE: " ++ xml_file_root) 16 white (20, 60)) ;;
  AddActor2D
    (TextActor ("PhysiCell Frame " ++ str_of_int (current_frame v)
                  ++ " - " ++ pretty num_cells ++ " cells - " ++ ts)
               16 white (20, 30)) ;;
  print ("Loaded " ++ pretty num_cells ++ " cells from frame "
           ++ str_of_int (current_frame v)).

(** [try_svg_fallback] *)
Definition try_svg_fallback : method unit :=
  v <- self ;;
  let svg_file := "snapshot" ++ fmt_08d (current_frame v) ++ ".svg" in
  let svg_path := path_join (output_dir v) svg_file in
  found <- exists_ svg_path ;;
  if found then
    print ("Found SVG file: " ++ svg_path) ;;
    AddActor2D (TextActor ("FILE: " ++ svg_path) 24 yellow (100, 100)) ;;
    AddActor2D
      (TextActor
         "SVG files contain limited position data. Full 3D visualization requires XML output."
         16 light_red (20, 140)) ;;
    create_demo_sphere
  else
    AddActor2D
      (TextActor ("No cell data found for frame "
                    ++ str_of_int (current_frame v))
                 24 yellow (100, 100)) ;;
    create_demo_sphere.

(** [if self.vtk_win: self.vtk_win.Render()] *)
Definition render_if_window : method unit :=
  v <- self ;;
  match vtk_win v with
  | Some _ => modify (emit Render)
  | None => ret tt
  end.

(** [update_frame_data] *)
Definition update_frame_data : method unit :=
  RemoveAllViewProps ;;
  add_frame_info_text ;;
  try_except
    (v <- self ;;
     let xml_file_root := "output" ++ fmt_08d (current_frame v) ++ ".xml" in
     let xml_file := path_join (output_dir v) xml_file_root in
     found <- exists_ xml_file ;;
     if found then load_and_display_cells xml_file_root
     else try_svg_fallback)
    (fun e =>
       print ("Error loading cell data: " ++ exn_msg e) ;;
       create_demo_sphere ;;
       add_error_text (exn_msg e)) ;;
  add_orientation_axes ;;
  render_if_window.

Definition window_title (frame : Z) : string :=
  "PhysiCell VTK Viewer - Frame " ++ str_of_int frame.

(** [set_current_frame] *)
Definition set_current_frame (frame_num : Z) : method unit :=
  v <- self ;;
  if current_frame v =? frame_num then ret tt
  else
    modify (set_current_frame_attr frame_num) ;;
    print ("VTK viewer updating to frame " ++ str_of_int frame_num) ;;
    (match qt_window v with
     | Some q =>
         modify (set_qt_window (Some (QtWindow (window_title frame_num) (shown q))))
     | None =>
         match vtk_win v with
         | Some _ =>
             modify (set_vtk_win
                       (Some (RenderWindow (Some (window_title frame_num)))))
         | None => ret tt
         end
     end) ;;
    update_frame_data.

(** [check_for_frame_update]: the body is [pass]. *)
Definition check_for_frame_update : method unit := ret tt.

(** One expiry of [update_timer]: the connected slot runs when the
    timer is active. *)
Definition timer_tick : method unit :=
  v <- self ;;
  match update_timer v with
  | Some t => if active t then check_for_frame_update else ret tt
  | None => ret tt
  end.

(** [open_window].  Camera reset, interactor start-up and the
    interactor style are internal to the toolkit. *)
Definition open_window : method unit :=
  v <- self ;;
  modify (set_qt_window
            (Some (QtWindow (window_title (current_frame v)) false))) ;;
  modify (set_vtk_widget true) ;;
  modify (set_vtk_win (Some (RenderWindow None))) ;;
  modify (set_interactor true) ;;
  modify (set_renderer (Some (Renderer [] None))) ;;
  update_frame_data ;;
  AddActor2D
    (TextActor "Left mouse: Rotate | Right mouse: Zoom | Middle mouse: Pan"
               12 white (20, 560)) ;;
  SetBackground dark_blue ;;
  add_orientation_axes ;;
  modify (set_update_timer (Some (Timer 500 true))) ;;
  v' <- self ;;
  modify (set_qt_window
            (match qt_window v' with
             | Some q => Some (QtWindow (title q) true)
             | None => None
             end)).

(** [close] *)
Definition close : method unit :=
  v <- self ;;
  modify (set_update_timer
            (match update_timer v with
             | Some t => Some (Timer (interval t) false)
             | None => None
             end)) ;;
  modify (set_qt_window
            (match qt_window v with
             | Some q => Some (QtWindow (title q) false)
             | None => None
             end)) ;;
  modify (set_vtk_win None) ;;
  modify (set_renderer None) ;;
  modify (set_interactor false).

(** [open_vtk_view] *)
Definition open_vtk_view (output_dir : string) (current_frame : Z)
           (cell_colors : option (list (list float)))
  : result unit * viewer :=
  open_window (init output_dir current_frame cell_colors).

End Methods.

(** ** Names for what the methods build *)

Definition xml_file_root (v : viewer) : string :=
  "output" ++ fmt_08d (current_frame v) ++ ".xml".
Definition xml_path (v : viewer) : string :=
  path_join (output_dir v) (xml_file_root v).
Definition svg_path (v : viewer) : string :=
  path_join (output_dir v)
            ("snapshot" ++ fmt_08d (current_frame v) ++ ".svg").

Definition frame_text (v : viewer) : view_prop :=
  TextActor ("CURRENT FRAME: " ++ str_of_int (current_frame v))
            24 yellow (100, 30).
Definition no_data_text (v : viewer) : view_prop :=
  TextActor ("No cell data found for frame " ++ str_of_int (current_frame v))
            24 yellow (100, 100).
Definition svg_file_text (v : viewer) : view_prop :=
  TextActor ("FILE: " ++ svg_path v) 24 yellow (100, 100).
Definition svg_note_text : view_prop :=
  TextActor
    "SVG files contain limited position data. Full 3D visualization requires XML output."
    16 light_red (20, 140).
Definition demo_sphere : view_prop := SphereActor (0, 0, 0) 50 30 30 red.

(** A method leaves [current_frame] alone. *)
Definition keeps_frame {A} (m : method A) : Prop :=
  forall v, current_frame (m v).2 = current_frame v.

Definition error_text (msg : string) : view_prop :=
  TextActor ("Error loading data: " ++ msg) 16 light_red (20, 100).
Definition help_text : view_prop :=
  TextActor "Left mouse: Rotate | Right mouse: Zoom | Middle mouse: Pan"
            12 white (20, 560).
Definition xml_file_text (root : string) : view_prop :=
  TextActor ("FILE: " ++ root) 16 white (20, 60).

(** The three parts [update_frame_data] is made of after it has emptied
    the scene: the body of its [try], the [except] handler, and the whole
    redraw. *)
Definition load_or_fallback (W : world) : method unit :=
  bind self (fun v =>
  bind (exists_ W (xml_path v)) (fun found =>
  if found then load_and_display_cells W (xml_file_root v)
  else try_svg_fallback W)).
Definition on_error (e : exn) : method unit :=
  bind (print ("Error loading cell data: " ++ exn_msg e)) (fun _ =>
  bind create_demo_sphere (fun _ =>
  add_error_text (exn_msg e))).
Definition after_caption (W : world) : method unit :=
  bind (try_except (load_or_fallback W) on_error) (fun _ =>
  bind add_orientation_axes (fun _ =>
  render_if_window)).
Definition draw_frame (W : world) : method unit :=
  bind add_frame_info_text (fun _ => after_caption W).

(** The parser raises nothing but subclasses of [Exception]. *)
Definition well_behaved (W : world) : Prop :=
  forall root dir e, pyMCDS_cells W root dir = Raise e -> is_Exception e = true.

(** The attributes of a viewer other than its renderer and the trace. *)
Definition attributes (v : viewer) :=
  (output_dir v, current_frame v, cell_colors v, qt_window v, vtk_widget v,
   vtk_win v, interactor v, update_timer v).

(** A method that touches the scene only by adding props at the end, and
    no attribute. *)
Definition grows {A} (m : method A) : Prop :=
  forall v,
    attributes (m v).2 = attributes v /\
    match renderer v with
    | None => renderer (m v).2 = None
    | Some r =>
        exists ps,
          renderer (m v).2 = Some (Renderer (props r ++ ps) (background r))
    end.

(** A computation, and a method, whose exceptions derive from
    [Exception]. *)
Definition pure_exceptions {A} (r : result A) : Prop :=
  forall e, r = Raise e -> is_Exception e = true.
Definition exceptions_only {A} (m : method A) : Prop :=
  forall v e, (m v).1 = Raise e -> is_Exception e = true.

(** The viewer without its trace, and two methods that act alike on
    viewers that differ in the trace only. *)
Definition erase_trace (v : viewer) : viewer :=
  Viewer (output_dir v) (current_frame v) (cell_colors v) (qt_window v)
         (vtk_widget v) (vtk_win v) (renderer v) (interactor v)
         (update_timer v) [].
Definition alike {A} (m1 m2 : method A) : Prop :=
  forall v1 v2,
    erase_trace v1 = erase_trace v2 ->
    (m1 v1).1 = (m2 v2).1 /\ erase_trace (m1 v1).2 = erase_trace (m2 v2).2.

End VtkView.

(* ===================================================================== *)
(** * Sample inputs *)
(* ===================================================================== *)

Module Samples.
Import DownloadBinary.

(** A Linux host, no command-line argument, and a release server that
    has the default model's archive with the binary as only member. *)
Definition linux_env : env :=
  Env ["download_binary.py"] "Linux" "/home/u/studio"
      (fun u =>
         if String.eqb u (physiboss_release ++ "template_BM-linux.tar.gz")
         then Some (TarGz [Member "project" "ELF" 493])
         else None)
      plain_extract.

Definition fresh_host : host := Host [] ∅ [].


(** The same host, asked for the [rules] model by name. *)
Definition rules_env (server : string -> option content) : env :=
  Env ["download_binary.py"; "rules"] "Linux" "/home/u/studio" server
      plain_extract.

Definition rules_url : string := physicell_release ++ "rules-linux.tar.gz".

(** Three servers: one that answers no request, one that answers with a
    page instead of an archive, and one whose archive has a [README]
    before the binary. *)
Definition server_down : string -> option content := fun _ => None.
Definition server_page : string -> option content :=
  fun _ => Some (Raw "<html>Not Found</html>").
Definition server_readme_first : string -> option content :=
  fun _ => Some (TarGz [Member "README" "text" 420; Member "project" "ELF" 493]).

Definition server_project : string -> option content :=
  fun _ => Some (TarGz [Member "project" "ELF" 420]).

(** An archive that lists its binary as [./project], and one whose
    binary is read-only (mode 0555). *)
Definition server_dot_slash : string -> option content :=
  fun _ => Some (TarGz [Member "./project" "ELF" 493]).
Definition server_read_only : string -> option content :=
  fun _ => Some (TarGz [Member "project" "ELF" 365]).

Definition project_host : host :=
  Host [] {[ "project" := File (Raw "ELF") 420 ]} [].

Import VtkView.

(** An output directory without any file. *)
Definition no_files : world :=
  World (fun _ => false)
        (fun root _ => Py.Raise (Py.Exn Py.FileNotFoundError root))
        (fun x _ => x).

(** Frame 3 has an XML output with four cells of types 0, 1, -1 and 7;
    frame 5 has one cell of type -2.  [np_power] is a stand-in: the
    radii it yields here are not those of numpy. *)
Definition two_frames : world :=
  World (fun p => String.eqb p "out/output00000003.xml"
                  || String.eqb p "out/output00000005.xml")
        (fun root _ =>
           if String.eqb root "output00000003.xml" then
             Py.Ret (MCDS (CellDf false
                             [ Cell 1 2 3 4.188790204786391 0;
                               Cell 4 5 6 8 1;
                               Cell 7 8 9 8 (-1);
                               Cell 0 0 0 1 7 ])
                          1501.5)
           else if String.eqb root "output00000005.xml" then
             Py.Ret (MCDS (CellDf false [ Cell 1 2 3 8 (-2) ]) 0)
           else Py.Raise (Py.Exn Py.FileNotFoundError root))
        (fun x _ => x).

Definition two_colors : list (list float) :=
  [ [1; 0; 0.5]; [0.1; 0.2; 0.3] ]%float.

(** A viewer as the constructor leaves it, and one whose window is open. *)
Definition unopened : viewer := init "out" 0 None.
Definition opened : viewer :=
  (open_window two_frames (init "out" 3 (Some two_colors))).2.
Definition opened_one_color : viewer :=
  (open_window two_frames (init "out" 4 (Some [ [1; 0; 0]%float ]))).2.

(** A table whose last entry comes out as (180, 180, 180), and one
    whose entry has components outside of [0, 1]. *)
Definition opened_gray_entry : viewer :=
  (open_window two_frames
     (init "out" 3 (Some [ [1; 0; 0]; [0.706; 0.706; 0.706] ]%float))).2.
Definition opened_wide_entry : viewer :=
  (open_window two_frames
     (init "out" 3 (Some [ [2; -1; 0.5]%float ]))).2.

(** The XML output of frame 4 is there, but the parser rejects it. *)
Definition corrupt_frame : world :=
  World (fun p => String.eqb p "out/output00000004.xml")
        (fun root _ => Py.Raise (Py.Exn Py.OtherException "not well-formed"))
        (fun x _ => x).

(** Frame 0 has two cells, of types 0 and 2, and a [position_z] column. *)
Definition one_frame : world :=
  World (fun p => String.eqb p "out/output00000000.xml")
        (fun root _ =>
           if String.eqb root "output00000000.xml" then
             Py.Ret (MCDS (CellDf true [ Cell 1 2 3 8 0; Cell 4 5 6 8 2 ]) 90)
           else Py.Raise (Py.Exn Py.FileNotFoundError root))
        (fun x _ => x).

(** A viewer made without colours, its window open. *)
Definition opened_no_colors : viewer :=
  (open_window one_frame (init "out" 0 None)).2.

End Samples.

(* ===================================================================== *)
(** * Properties of the download script *)
(* ===================================================================== *)

Section DownloadFacts.
Import Py DownloadBinary.
Local Open Scope script_scope.

Lemma printed_nil h : printed [] h = h.
Proof. destruct h; unfold printed; simpl. by rewrite app_nil_r. Qed.

Lemma printed_app l1 l2 h : printed l2 (printed l1 h) = printed (l1 ++ l2) h.
Proof. unfold printed; simpl. by rewrite app_assoc. Qed.

Lemma print_printed s h : print s h = (Ok tt, printed [s] h).
Proof. reflexivity. Qed.

Lemma print_usage_printed h : print_usage h = (Ok tt, printed usage_lines h).
Proof.
  unfold print_usage, bind. rewrite !print_printed, !printed_app. reflexivity.
Qed.

Lemma startswith_cons a p s :
  startswith s (String a p) = true ->
  exists s', s = String a s' /\ startswith s' p = true.
Proof.
  unfold startswith. destruct s as [|c s]; cbn [String.prefix]; [discriminate|].
  destruct (ascii_dec a c) as [<-|]; [|discriminate]. eauto.
Qed.

(** A string that starts with ["linux"] is neither ["darwin"] nor one of
    the Windows names, so the order of the tests does not matter. *)
Lemma linux_only s :
  startswith s "linux" = true ->
  String.eqb s "darwin" = false /\
  startswith s "win" || startswith s "msys_nt" || startswith s "mingw64_nt" = false.
Proof.
  intros (s' & -> & _)%startswith_cons. split; reflexivity.
Qed.

Lemma windows_not_darwin s :
  startswith s "win" || startswith s "msys_nt" || startswith s "mingw64_nt" = true ->
  String.eqb s "darwin" = false.
Proof.
  rewrite !orb_true_iff.
  intros [[H|H]|H]; apply startswith_cons in H as (s' & -> & _); reflexivity.
Qed.

Lemma str_in_spec k xs : str_in k xs = true <-> k ∈ xs.
Proof.
  unfold str_in. rewrite existsb_exists, list_elem_of_In. split.
  - intros (x & Hx & ->%String.eqb_eq). done.
  - intros H. exists k. split; [done|apply String.eqb_refl].
Qed.

Lemma str_in_false k xs : str_in k xs = false <-> k ∉ xs.
Proof.
  rewrite <- str_in_spec. destruct (str_in k xs); split; congruence.
Qed.

Lemma locate_supported e model base h suffix :
  lookup_model list_models model = Some base ->
  platform_file model (os_type e) =
    ret (model ++ suffix) ->
  locate e model h =
    (Ok (model ++ suffix, base ++ model ++ suffix),
     printed (locate_lines e (model ++ suffix) (base ++ model ++ suffix)) h).
Proof.
  intros Hbase Hfile. unfold locate, bind, print2.
  rewrite print_printed, Hfile. unfold ret at 1. unfold make_url.
  rewrite Hbase. unfold ret. rewrite !print_printed, !printed_app.
  reflexivity.
Qed.

(** C5. For a model of [list_models] with base URL [base], [locate]
    returns the archive name and the URL [base ++ model ++ suffix], where
    the suffix is [-macos.tar.gz] when the lower-cased OS name is
    [darwin], [-win.tar.gz] when it starts with [win], [msys_nt] or
    [mingw64_nt], and [-linux.tar.gz] when it starts with [linux]; for
    every other OS name the script prints the unsupported-OS message and
    exits with status 1. *)
Theorem locate_url (e : env) (model base : string) (h : host) :
  lookup_model list_models model = Some base ->
  let os := lower (os_type e) in
  let resolved suffix :=
    locate e model h =
      (Ok (model ++ suffix, base ++ model ++ suffix),
       printed (locate_lines e (model ++ suffix) (base ++ model ++ suffix)) h) in
  (os = "darwin" -> resolved "-macos.tar.gz") /\
  (startswith os "win" || startswith os "msys_nt"
     || startswith os "mingw64_nt" = true -> resolved "-win.tar.gz") /\
  (startswith os "linux" = true -> resolved "-linux.tar.gz") /\
  (os <> "darwin" ->
   startswith os "win" || startswith os "msys_nt"
     || startswith os "mingw64_nt" = false ->
   startswith os "linux" = false ->
   locate e model h =
     (Exit 1,
      printed [ "> Operating system: " ++ " " ++ os_type e;
                unsupported_message ] h)).
Proof.
  intros Hbase os resolved. subst resolved. cbv beta.
  repeat split.
  - intros Hos. apply locate_supported; [done|].
    unfold platform_file. fold os. rewrite Hos. reflexivity.
  - intros Hwin. apply locate_supported; [done|].
    unfold platform_file. fold os.
    rewrite (windows_not_darwin _ Hwin), Hwin. reflexivity.
  - intros Hlin. apply locate_supported; [done|].
    unfold platform_file. fold os.
    destruct (linux_only _ Hlin) as [-> ->]. rewrite Hlin. reflexivity.
  - intros Hmac Hwin Hlin. unfold locate, bind, print2.
    rewrite print_printed. unfold platform_file. fold os.
    apply String.eqb_neq in Hmac. rewrite Hmac, Hwin, Hlin.
    unfold bind. rewrite print_printed, printed_app. reflexivity.
Qed.

(** C10. Without a command-line argument the script prints the usage
    text and goes on with the model [template_BM]; with [-h], [--help]
    or a name that is not a key of [list_models] as first argument it
    prints the usage text and exits with status 1. *)
Theorem main_arguments (e : env) (h : host) :
  ((length (argv e) < 2)%nat ->
   main e h =
     install e "template_BM"
       (printed (usage_lines ++ ["> Chosen model: " ++ " " ++ "template_BM"]) h)) /\
  (forall prog a rest,
      argv e = prog :: a :: rest ->
      a = "-h" \/ a = "--help" \/ a ∉ keys list_models ->
      main e h =
        (Exit 1, printed (["model = " ++ " " ++ a] ++ usage_lines) h)).
Proof.
  split.
  - intros Hlen. apply Nat.ltb_lt in Hlen.
    unfold main, select_model, choose_model, bind. rewrite Hlen.
    rewrite print_usage_printed. unfold ret at 1.
    change (check_model "template_BM" (printed usage_lines h))
      with (Ok tt, printed usage_lines h).
    unfold print2. rewrite print_printed, printed_app. reflexivity.
  - intros prog a rest Hargv Ha.
    unfold main, select_model, choose_model, bind. rewrite Hargv.
    cbn [length Nat.ltb Nat.leb lookup list_lookup].
    unfold print2, bind. rewrite print_printed. unfold ret at 1.
    assert (Hbad : str_in a ["-h"; "--help"]
                   || negb (str_in a (keys list_models)) = true).
    { destruct Ha as [->| [->|Ha]]; [reflexivity..|].
      apply str_in_false in Ha. rewrite Ha. apply orb_true_r. }
    unfold check_model. rewrite Hbad. unfold bind.
    rewrite print_usage_printed, printed_app. reflexivity.
Qed.

Lemma getmember_first first rest :
  exists m, getmember (first :: rest) (m_name first) = Some m /\
            m_name m = m_name first.
Proof.
  unfold getmember.
  destruct (find (fun m => String.eqb (m_name m) (m_name first))
                 (rev (first :: rest))) as [m|] eqn:Hfind.
  - exists m. split; [done|].
    apply find_some in Hfind as [_ Heq]. by apply String.eqb_eq in Heq.
  - exfalso. eapply find_none in Hfind.
    + rewrite String.eqb_refl in Hfind. discriminate.
    + apply in_rev. rewrite rev_involutive. by left.
Qed.

(** What [fetch_and_untar] does, by what the server answers and by how
    the library's extraction ends. *)
Lemma fetch_and_untar_eq e mb_file url h :
  fetch_and_untar e mb_file url h =
    match server e url with
    | None =>
        (Uncaught (Exn URLError url),
         Host (stdout h) (disk h) (requests h ++ [url]))
    | Some body =>
        let d1 := <[mb_file := File body (archive_mode (disk h) mb_file)]> (disk h) in
        match body with
        | TarGz (first :: rest) =>
            let r := extract e (first :: rest) (m_name first) d1 in
            match r.1, r.2 !! mb_file with
            | Ret _, Some _ =>
                (Ok tt,
                 Host (stdout h ++ [ "> Uncompressing the model";
                                     "binary_name = " ++ m_name first ++ newline ])
                      (delete mb_file r.2)
                      (requests h ++ [url]))
            | _, _ =>
                (Exit 1,
                 Host (stdout h ++ [ "> Uncompressing the model";
                                     "binary_name = " ++ m_name first ++ newline;
                                     "! Error untarring the file" ])
                      r.2 (requests h ++ [url]))
            end
        | _ =>
            (Exit 1,
             Host (stdout h ++ [ "> Uncompressing the model";
                                 "! Error untarring the file" ])
                  d1 (requests h ++ [url]))
        end
    end.
Proof.
  unfold fetch_and_untar, urlretrieve, untar, try_except, tarfile_open,
    tar_extract, os_remove, bind, log_request, get_disk, set_disk, print,
    ret, raise, exit.
  destruct (server e url) as [body|]; [|reflexivity].
  cbn -[insert lookup delete].
  fold (archive_mode (disk h) mb_file).
  rewrite lookup_insert_eq.
  destruct body as [raw|[|first rest]];
    cbn -[insert lookup delete].
  - rewrite <- app_assoc. reflexivity.
  - rewrite lookup_nil. cbn. rewrite <- app_assoc. reflexivity.
  - change ((m_name first :: map m_name rest) !! 0%nat)
      with (Some (m_name first)).
    cbn -[insert lookup delete].
    destruct (extract e (first :: rest) (m_name first) _) as [[[]|x] dx];
      cbn -[insert lookup delete].
    + destruct (dx !! mb_file); cbn -[insert lookup delete];
        rewrite <- !app_assoc; reflexivity.
    + rewrite <- !app_assoc. reflexivity.
Qed.

Lemma make_executable_eq mb_file h :
  make_executable mb_file h =
    match disk h !! new_name mb_file with
    | Some f =>
        (Ok tt, with_disk (<[new_name mb_file := executable f]> (disk h)) h)
    | None => (Uncaught (Exn FileNotFoundError (new_name mb_file)), h)
    end.
Proof.
  unfold make_executable, bind, get_disk.
  destruct (disk h !! new_name mb_file); reflexivity.
Qed.

Lemma string_length_app (a b : string) :
  String.length (a ++ b) = (String.length a + String.length b)%nat.
Proof. induction a as [|c a IH]; simpl; [done|]. by rewrite IH. Qed.

(** A suffix test on [a ++ b] only looks at [b] when [b] is long enough. *)
Lemma endswith_app (a b p : string) :
  (String.length p <= String.length b)%nat ->
  endswith (a ++ b) p = endswith b p.
Proof.
  intros Hlen. unfold endswith. rewrite string_length_app.
  replace (String.length p <=? String.length a + String.length b)%nat
    with true by (symmetry; apply Nat.leb_le; lia).
  replace (String.length p <=? String.length b)%nat
    with true by (symmetry; apply Nat.leb_le; lia).
  f_equal. f_equal.
  induction a as [|c a IH]; [done|].
  cbn [String.length String.append].
  replace (S (String.length a) + String.length b - String.length p)%nat
    with (S (String.length a + String.length b - String.length p)) by lia.
  exact IH.
Qed.

Lemma new_name_win model : new_name (model ++ "-win.tar.gz") = "project.exe".
Proof.
  unfold new_name. rewrite endswith_app; [reflexivity|]. cbn. lia.
Qed.

Lemma new_name_macos model : new_name (model ++ "-macos.tar.gz") = "project".
Proof.
  unfold new_name. rewrite endswith_app; [reflexivity|]. cbn. lia.
Qed.

Lemma new_name_linux model : new_name (model ++ "-linux.tar.gz") = "project".
Proof.
  unfold new_name. rewrite endswith_app; [reflexivity|]. cbn. lia.
Qed.

(** The archive is never the file that is made executable. *)
Lemma new_name_not_archive model suffix :
  suffix = "-win.tar.gz" \/ suffix = "-macos.tar.gz" \/ suffix = "-linux.tar.gz" ->
  new_name (model ++ suffix) <> model ++ suffix.
Proof.
  intros Hs Heq.
  assert (Hgz : endswith (model ++ suffix) ".tar.gz" = true).
  { rewrite endswith_app; destruct Hs as [->|[->| ->]]; cbn; (reflexivity || lia). }
  rewrite <- Heq in Hgz.
  destruct Hs as [->|[->| ->]];
    rewrite ?new_name_win, ?new_name_macos, ?new_name_linux in Hgz;
    discriminate.
Qed.

(** [locate] only prints; when it succeeds, the archive name is the model
    name followed by one of the three suffixes and the URL is the model's
    entry of [list_models] followed by the archive name. *)
Lemma locate_ok e model h mb_file url h' :
  locate e model h = (Ok (mb_file, url), h') ->
  (exists suffix,
      (suffix = "-win.tar.gz" \/ suffix = "-macos.tar.gz"
       \/ suffix = "-linux.tar.gz") /\
      mb_file = model ++ suffix) /\
  (exists base, lookup_model list_models model = Some base /\
                url = base ++ mb_file) /\
  disk h' = disk h /\ requests h' = requests h.
Proof.
  unfold locate, platform_file, make_url, bind, print2, print, ret, exit, raise.
  destruct (lower (os_type e) =? "darwin")%string;
    [|destruct (startswith (lower (os_type e)) "win"
                || startswith (lower (os_type e)) "msys_nt"
                || startswith (lower (os_type e)) "mingw64_nt");
      [|destruct (startswith (lower (os_type e)) "linux")]];
    cbn [stdout disk requests];
    try discriminate;
    (destruct (lookup_model list_models model) as [base|];
     cbn [stdout disk requests]; [|discriminate]);
    intros [= <- <- <-]; cbn [stdout disk requests];
    (split; [eexists; split; [|reflexivity]; tauto|]);
    (split; [exists base; done|done]).
Qed.


Lemma fetch_and_untar_ok e mb_file url h h' :
  fetch_and_untar e mb_file url h = (Ok tt, h') ->
  exists first rest dx,
    server e url = Some (TarGz (first :: rest)) /\
    extract e (first :: rest) (m_name first)
      (<[mb_file := File (TarGz (first :: rest))
                         (archive_mode (disk h) mb_file)]> (disk h))
    = (Ret tt, dx) /\
    is_Some (dx !! mb_file) /\
    disk h' = delete mb_file dx /\
    requests h' = (requests h ++ [url])%list.
Proof.
  rewrite fetch_and_untar_eq.
  destruct (server e url) as [[raw|[|first rest]]|]; cbv zeta; try discriminate.
  destruct (extract e (first :: rest) (m_name first) _) as [[[]|x] dx] eqn:Hx;
    cbn [fst snd]; [|discriminate].
  destruct (dx !! mb_file) as [a|] eqn:Ha; [|discriminate].
  intros [= <-]. exists first, rest, dx. cbn [disk requests].
  rewrite Ha. eauto.
Qed.

(** C7. The one call of the archive library is for the name of the
    archive's first member.  Once it and the removal of the archive have
    gone through, the script stats and chmods the file [project], or
    [project.exe] for a Windows archive, whatever that member is called:
    it ends normally, with the owner-execute bit added to that file,
    exactly when a file of that name is in the directory after the
    extraction, and with an uncaught [FileNotFoundError] otherwise. *)
Theorem install_chmod_target (e : env) (model mb_file url : string)
        (h h2 h3 : host) :
  locate e model h = (Ok (mb_file, url), h2) ->
  overwritable (disk h) mb_file = true ->
  fetch_and_untar e mb_file url h2 = (Ok tt, h3) ->
  (exists first rest dx,
      server e url = Some (TarGz (first :: rest)) /\
      extract e (first :: rest) (m_name first)
        (<[mb_file := File (TarGz (first :: rest))
                           (archive_mode (disk h) mb_file)]> (disk h))
      = (Ret tt, dx) /\
      disk h3 = delete mb_file dx) /\
  (mb_file = model ++ "-win.tar.gz" /\ new_name mb_file = "project.exe" \/
   (mb_file = model ++ "-macos.tar.gz" \/ mb_file = model ++ "-linux.tar.gz") /\
   new_name mb_file = "project") /\
  install e model h =
    match disk h3 !! new_name mb_file with
    | Some f =>
        (Ok tt,
         with_disk (<[new_name mb_file := executable f]> (disk h3)) h3)
    | None => (Uncaught (Exn FileNotFoundError (new_name mb_file)), h3)
    end.
Proof.
  intros Hloc _ Hfetch.
  destruct (locate_ok _ _ _ _ _ _ Hloc)
    as ((suffix & Hsuffix & ->) & _ & Hdisk & _).
  split; [|split].
  - destruct (fetch_and_untar_ok _ _ _ _ _ Hfetch)
      as (first & rest & dx & Hsrv & Hx & _ & Hd & _).
    exists first, rest, dx. rewrite <- Hdisk. done.
  - destruct Hsuffix as [->|[->| ->]];
      rewrite ?new_name_win, ?new_name_macos, ?new_name_linux; tauto.
  - unfold install, bind. rewrite Hloc. cbn [fst snd].
    rewrite Hfetch. apply make_executable_eq.
Qed.


Import Samples.

Lemma locate_url_witness :
  lookup_model list_models "template_BM" = Some physiboss_release /\
  locate linux_env "template_BM" fresh_host =
    (Ok ("template_BM-linux.tar.gz",
         physiboss_release ++ "template_BM-linux.tar.gz"),
     printed (locate_lines linux_env "template_BM-linux.tar.gz"
                (physiboss_release ++ "template_BM-linux.tar.gz"))
             fresh_host).
Proof.
  split; [reflexivity|].
  apply (locate_url linux_env "template_BM" physiboss_release fresh_host);
    reflexivity.
Defined.

Lemma main_arguments_witness :
  (length (argv linux_env) < 2)%nat /\
  main linux_env fresh_host =
    install linux_env "template_BM"
      (printed (usage_lines ++ ["> Chosen model: " ++ " " ++ "template_BM"])
               fresh_host).
Proof.
  assert (Hlen : (length (argv linux_env) < 2)%nat) by (cbn; lia).
  split; [exact Hlen|].
  apply (main_arguments linux_env fresh_host). exact Hlen.
Defined.

Lemma install_chmod_target_witness :
  install linux_env "template_BM" fresh_host =
    (Ok tt,
     Host [ "> Operating system:  Linux";
            "> Downloading from:  https://github.com/sysbio-curie/PhysiBoSS/releases/download/v2.2.3/template_BM-linux.tar.gz";
            "> Loading into directory:  /home/u/studio";
            "> File:  /home/u/studio/template_BM-linux.tar.gz";
            "> Uncompressing the model";
            "binary_name = project" ++ newline ]
          {[ "project" := File (Raw "ELF") 493 ]}
          [ "https://github.com/sysbio-curie/PhysiBoSS/releases/download/v2.2.3/template_BM-linux.tar.gz" ]).
Proof.
  pose (h2 := (locate linux_env "template_BM" fresh_host).2).
  pose (mb_file := "template_BM-linux.tar.gz").
  pose (url := physiboss_release ++ mb_file).
  pose (h3 := (fetch_and_untar linux_env mb_file url h2).2).
  assert (Hloc : locate linux_env "template_BM" fresh_host
                 = (Ok (mb_file, url), h2)) by (vm_compute; reflexivity).
  assert (Hfree : overwritable (disk fresh_host) mb_file = true)
    by (vm_compute; reflexivity).
  assert (Hfetch : fetch_and_untar linux_env mb_file url h2 = (Ok tt, h3))
    by (vm_compute; reflexivity).
  destruct (install_chmod_target linux_env "template_BM" mb_file url
              fresh_host h2 h3 Hloc Hfree Hfetch) as (_ & _ & ->).
  vm_compute. reflexivity.
Defined.



End DownloadFacts.

(* ===================================================================== *)
(** * Properties of the viewer *)
(* ===================================================================== *)

Section ViewerFacts.
Import Py VtkView.
Local Open Scope method_scope.

(** ** Frame preservation, method by method *)

Lemma keeps_ret {A} (a : A) : keeps_frame (ret a).
Proof. intros v. reflexivity. Qed.

Lemma keeps_raise {A} (e : exn) : keeps_frame (@raise A e).
Proof. intros v. reflexivity. Qed.

Lemma keeps_lift {A} (r : result A) : keeps_frame (lift r).
Proof. intros v. reflexivity. Qed.

Lemma keeps_self : keeps_frame self.
Proof. intros v. reflexivity. Qed.

Lemma keeps_bind {A B} (m : method A) (k : A -> method B) :
  keeps_frame m -> (forall a, keeps_frame (k a)) -> keeps_frame (bind m k).
Proof.
  intros Hm Hk v. unfold bind. specialize (Hm v).
  destruct (m v) as [[a|e] v1]; cbn [snd] in *; [|done].
  rewrite <- Hm. apply Hk.
Qed.

Lemma keeps_try {A} (body : method A) (handler : exn -> method A) :
  keeps_frame body -> (forall e, keeps_frame (handler e)) ->
  keeps_frame (try_except body handler).
Proof.
  intros Hb Hh v. unfold try_except. specialize (Hb v).
  destruct (body v) as [[a|e] v1]; cbn [snd] in *; [done|].
  destruct (is_Exception e); [|done].
  rewrite <- Hb. apply Hh.
Qed.

Lemma keeps_modify (f : viewer -> viewer) :
  (forall v, current_frame (f v) = current_frame v) ->
  keeps_frame (modify f).
Proof. intros Hf v. apply Hf. Qed.

Lemma keeps_add_prop attr p : keeps_frame (add_prop attr p).
Proof. intros v. unfold add_prop. destruct (renderer v); reflexivity. Qed.

Lemma keeps_RemoveAllViewProps : keeps_frame RemoveAllViewProps.
Proof.
  intros v. unfold RemoveAllViewProps. destruct (renderer v); reflexivity.
Qed.

Lemma keeps_SetBackground c : keeps_frame (SetBackground c).
Proof. intros v. unfold SetBackground. destruct (renderer v); reflexivity. Qed.

Lemma keeps_exists_ W p : keeps_frame (exists_ W p).
Proof. intros v. reflexivity. Qed.

Lemma keeps_read_output W root : keeps_frame (read_output W root).
Proof. intros v. reflexivity. Qed.

Ltac keeps :=
  repeat first
    [ apply keeps_ret | apply keeps_raise | apply keeps_lift
    | apply keeps_self | apply keeps_add_prop
    | apply keeps_RemoveAllViewProps | apply keeps_SetBackground
    | apply keeps_exists_ | apply keeps_read_output
    | apply keeps_modify; intros ?; reflexivity
    | apply keeps_bind; [|intros ?]
    | apply keeps_try; [|intros ?]
    | match goal with
      | |- keeps_frame (if ?b then _ else _) => destruct b
      | |- keeps_frame (match ?o with _ => _ end) => destruct o
      end ].

Lemma keeps_create_demo_sphere : keeps_frame create_demo_sphere.
Proof. unfold create_demo_sphere, AddActor. keeps. Qed.

Lemma keeps_load_and_display_cells W root :
  keeps_frame (load_and_display_cells W root).
Proof. unfold load_and_display_cells, AddActor, AddActor2D, print. keeps. Qed.

Lemma keeps_try_svg_fallback W : keeps_frame (try_svg_fallback W).
Proof.
  unfold try_svg_fallback, create_demo_sphere, AddActor, AddActor2D, print.
  keeps.
Qed.

Lemma keeps_update_frame_data W : keeps_frame (update_frame_data W).
Proof.
  unfold update_frame_data, add_frame_info_text, add_error_text,
    add_orientation_axes, render_if_window, create_demo_sphere,
    AddActor, AddActor2D, print.
  keeps.
Qed.

Lemma keeps_open_window W : keeps_frame (open_window W).
Proof.
  unfold open_window, add_orientation_axes, AddActor2D.
  keeps.
Qed.

Lemma keeps_close : keeps_frame close.
Proof. unfold close. keeps. Qed.

(** ** The frame switch and the timer *)

(** C4. Asking for the frame that is already displayed returns at once
    and leaves every attribute of the viewer, the scene, the window
    title and the trace of effects as they were. *)
Theorem set_current_frame_same (W : world) (v : viewer) :
  set_current_frame W (current_frame v) v = (Ret tt, v).
Proof.
  unfold set_current_frame, bind, self. rewrite Z.eqb_refl. reflexivity.
Qed.

(** C9. The timer callback does nothing: the viewer, its scene and the
    trace of effects (no file probed or read, no render) are unchanged,
    also when it runs from the timer.  No other method but
    [set_current_frame] assigns [current_frame], which then holds the
    requested number. *)
Theorem check_for_frame_update_inert (W : world) (v : viewer) :
  check_for_frame_update v = (Ret tt, v) /\
  timer_tick v = (Ret tt, v) /\
  current_frame (update_frame_data W v).2 = current_frame v /\
  (forall root,
      current_frame (load_and_display_cells W root v).2 = current_frame v) /\
  current_frame (try_svg_fallback W v).2 = current_frame v /\
  current_frame (open_window W v).2 = current_frame v /\
  current_frame (close v).2 = current_frame v /\
  (forall n, current_frame (set_current_frame W n v).2 = n).
Proof.
  split; [reflexivity|]. split.
  { unfold timer_tick, bind, self.
    destruct (update_timer v) as [[i [|]]|]; reflexivity. }
  split; [apply keeps_update_frame_data|].
  split; [intros root; apply keeps_load_and_display_cells|].
  split; [apply keeps_try_svg_fallback|].
  split; [apply keeps_open_window|].
  split; [apply keeps_close|].
  intros n. unfold set_current_frame, bind at 1, self.
  destruct (current_frame v =? n) eqn:Heq.
  - apply Z.eqb_eq in Heq. exact Heq.
  - assert (Hk : keeps_frame
              (print ("VTK viewer updating to frame " ++ str_of_int n) ;;
               match qt_window v with
               | Some q =>
                   modify (set_qt_window
                             (Some (QtWindow (window_title n) (shown q))))
               | None =>
                   match vtk_win v with
                   | Some _ =>
                       modify (set_vtk_win
                                 (Some (RenderWindow (Some (window_title n)))))
                   | None => ret tt
                   end
               end ;;
               update_frame_data W)).
    { unfold print. keeps. }
    unfold bind at 1. cbn [modify]. rewrite Hk. reflexivity.
Qed.

(** ** The fallback of [update_frame_data] *)

(** C1, amended. On a viewer that has its renderer (the window is
    open), when the XML output of the current frame does not exist,
    [update_frame_data] probes the SVG snapshot next and returns
    normally.  The scene then holds the frame caption, the red sphere of
    radius 50 at the origin and a message: [No cell data found ...] when
    the snapshot is absent too, the snapshot's name and a note when it
    is there. *)
Theorem update_frame_data_fallback (W : world) (v : viewer) (r : renderer_t) :
  renderer v = Some r ->
  path_exists W (xml_path v) = false ->
  exists v',
    update_frame_data W v = (Ret tt, v') /\
    trace v' =
      (trace v ++ [PathExists (xml_path v); PathExists (svg_path v)]
         ++ (if path_exists W (svg_path v)
             then [Console ("Found SVG file: " ++ svg_path v)] else [])
         ++ (if vtk_win v is Some _ then [Render] else []))%list /\
    renderer v' =
      Some (Renderer
              (if path_exists W (svg_path v)
               then [frame_text v; svg_file_text v; svg_note_text; demo_sphere]
               else [frame_text v; no_data_text v; demo_sphere])
              (background r)) /\
    current_frame v' = current_frame v.
Proof.
  intros Hr Hxml.
  destruct v as [od cf cc qw vw win rd ia ut tr]. cbn in Hr. subst rd.
  unfold xml_path, xml_file_root, svg_path in *. cbn [output_dir current_frame] in *.
  unfold update_frame_data, try_svg_fallback, add_frame_info_text,
    create_demo_sphere, add_orientation_axes, render_if_window, try_except,
    exists_, AddActor, AddActor2D, add_prop, RemoveAllViewProps, print,
    modify, bind, self, ret.
  cbn -[fmt_08d str_of_int path_join String.append].
  rewrite Hxml.
  cbn -[fmt_08d str_of_int path_join String.append].
  destruct (path_exists W (path_join od ("snapshot" ++ fmt_08d cf ++ ".svg")));
    destruct win;
    cbn -[fmt_08d str_of_int path_join String.append];
    (eexists; split; [reflexivity|]);
    cbn -[fmt_08d str_of_int path_join String.append];
    rewrite <- ?app_assoc; done.
Qed.

(** ** Colours of the rendered cells *)

Lemma getitem_negative {A} (l : list A) (i : Z) :
  - Z.of_nat (length l) <= i < 0 ->
  exists x, l !! Z.to_nat (Z.of_nat (length l) + i) = Some x /\
            getitem l i = Ret x.
Proof.
  intros Hi. unfold getitem.
  replace (i <? 0) with true by (symmetry; apply Z.ltb_lt; lia).
  replace ((0 <=? Z.of_nat (length l) + i)
           && (Z.of_nat (length l) + i <? Z.of_nat (length l)))
    with true
    by (symmetry; apply andb_true_iff; split;
        [apply Z.leb_le|apply Z.ltb_lt]; lia).
  destruct (l !! Z.to_nat (Z.of_nat (length l) + i)) as [x|] eqn:Hx.
  - eauto.
  - apply lookup_ge_None in Hx. lia.
Qed.

Lemma getitem_below {A} (l : list A) (i : Z) :
  i < - Z.of_nat (length l) ->
  getitem l i = Raise (Exn IndexError "list index out of range").
Proof.
  intros Hi. unfold getitem.
  replace (i <? 0) with true by (symmetry; apply Z.ltb_lt; lia).
  replace (0 <=? Z.of_nat (length l) + i) with false
    by (symmetry; apply Z.leb_gt; lia).
  reflexivity.
Qed.

(** The loop appends one point, one colour and one size per cell, in
    order; it ends normally only if every colour could be computed. *)
Lemma fill_arrays_ok table cells g g' :
  fill_arrays table cells g = Ret g' ->
  exists cols,
    Forall2 (fun x col => cell_color table (cell_type x.1.1) = Ret col)
            cells cols /\
    g_colors g' = (g_colors g ++ map uchar3 cols)%list /\
    g_sizes g' = (g_sizes g ++ map (fun x => to_float32 x.2) cells)%list /\
    g_points g' =
      (g_points g
         ++ map (fun x => (to_float32 (position_x x.1.1),
                           to_float32 (position_y x.1.1),
                           to_float32 x.1.2)) cells)%list.
Proof.
  revert g. induction cells as [|[[c z] radius] rest IH]; intros g.
  - cbn. intros [= <-]. exists []. rewrite !app_nil_r. by repeat constructor.
  - cbn [fill_arrays]. cbv zeta. unfold rbind at 1.
    destruct (cell_color table (cell_type c)) as [col|e] eqn:Hcol;
      [|discriminate].
    intros (cols & Hall & Hc & Hs & Hp)%IH.
    cbn [InsertNextPoint InsertNextTuple3 InsertNextValue
         g_points g_colors g_sizes] in Hc, Hs, Hp.
    exists (col :: cols). split; [by constructor|].
    rewrite Hc, Hs, Hp, <- !app_assoc. done.
Qed.

Lemma fill_arrays_total table cells g :
  Forall (fun x => exists col, cell_color table (cell_type x.1.1) = Ret col)
         cells ->
  exists g', fill_arrays table cells g = Ret g'.
Proof.
  intros Hall. revert g.
  induction Hall as [|[[c z] radius] rest [col Hcol] _ IH]; intros g.
  - by exists g.
  - cbn [fill_arrays]. cbn in Hcol. rewrite Hcol. apply IH.
Qed.

(** What a normal return of [load_and_display_cells] tells. *)
Lemma load_and_display_cells_ok W root v v' :
  load_and_display_cells W root v = (Ret tt, v') ->
  exists m g r ts,
    pyMCDS_cells W root (output_dir v) = Ret m /\
    fill_arrays (cell_colors v) (loop_input W (get_cell_df m))
                (GlyphData [] [] []) = Ret g /\
    time_str (get_time m) = Ret ts /\
    renderer v = Some r /\
    renderer v' =
      Some (Renderer
              (props r ++
                 [ GlyphActor (g_points g) (g_colors g) (g_sizes g);
                   TextActor ("FILE: " ++ root) 16 white (20, 60);
                   TextActor
                     ("PhysiCell Frame " ++ str_of_int (current_frame v)
                        ++ " - " ++ pretty (length (rows (get_cell_df m)))
                        ++ " cells - " ++ ts)
                     16 white (20, 30) ])
              (background r)).
Proof.
  destruct v as [od cf cc qw vw win rd ia ut tr].
  unfold load_and_display_cells, read_output, AddActor, AddActor2D, add_prop,
    print, modify, lift, bind, self.
  cbn -[fill_arrays time_str loop_input str_of_int pretty String.append].
  destruct (pyMCDS_cells W root od) as [m|e]; [|discriminate].
  destruct (fill_arrays cc (loop_input W (get_cell_df m)) (GlyphData [] [] []))
    as [g|e] eqn:Hfill; [|discriminate].
  cbn -[fill_arrays time_str loop_input str_of_int pretty String.append].
  destruct rd as [r|]; [|discriminate].
  cbn -[fill_arrays time_str loop_input str_of_int pretty String.append].
  destruct (time_str (get_time m)) as [ts|e] eqn:Hts; [|discriminate].
  cbn -[fill_arrays time_str loop_input str_of_int pretty String.append].
  intros [= <-]. exists m, g, r, ts.
  cbn -[fill_arrays time_str loop_input str_of_int pretty String.append].
  rewrite <- !app_assoc. done.
Qed.

(** The arrays of the glyph actor, row by row. *)
Lemma load_and_display_cells_arrays W root v v' :
  load_and_display_cells W root v = (Ret tt, v') ->
  exists m r points colors sizes,
    pyMCDS_cells W root (output_dir v) = Ret m /\
    renderer v' = Some r /\
    GlyphActor points colors sizes ∈ props r /\
    length colors = length (rows (get_cell_df m)) /\
    forall i c,
      rows (get_cell_df m) !! i = Some c ->
      exists col,
        colors !! i = Some (uchar3 col) /\
        cell_color (cell_colors v) (cell_type c) = Ret col /\
        sizes !! i = Some (to_float32 (cell_radius W c)).
Proof.
  intros (m & g & r & ts & Hm & Hfill & _ & _ & Hr')%load_and_display_cells_ok.
  apply fill_arrays_ok in Hfill as (cols & Hall & Hc & Hs & _).
  cbn in Hc, Hs.
  eexists m, _, (g_points g), (g_colors g), (g_sizes g).
  split; [done|]. split; [exact Hr'|].
  split; [cbn; set_solver|].
  rewrite Hc, Hs.
  split.
  - apply Forall2_length in Hall. rewrite length_map, <- Hall.
    unfold loop_input. by rewrite length_map.
  - intros i c Hi.
    assert (Hrow : loop_input W (get_cell_df m) !! i
                   = Some (c,
                           if has_position_z (get_cell_df m)
                           then position_z c else 0%float,
                           cell_radius W c)).
    { unfold loop_input. rewrite list_lookup_fmap, Hi. done. }
    destruct (Forall2_lookup_l _ _ _ _ _ Hall Hrow) as (col & Hcol & Hcc).
    exists col. split; [rewrite list_lookup_fmap, Hcol; reflexivity|].
    split; [exact Hcc|].
    rewrite list_lookup_fmap, Hrow. done.
Qed.

(** [rgb255] returns only the three truncated products. *)
Lemma rgb255_ok entry col :
  rgb255 entry = Ret col ->
  exists c0 c1 c2 r g b,
    getitem entry 0 = Ret c0 /\ getitem entry 1 = Ret c1 /\
    getitem entry 2 = Ret c2 /\
    int_of_float (c0 * 255)%float = Ret r /\
    int_of_float (c1 * 255)%float = Ret g /\
    int_of_float (c2 * 255)%float = Ret b /\
    col = (r, g, b).
Proof.
  unfold rgb255, rbind.
  destruct (getitem entry 0) as [c0|] eqn:H0; [|discriminate].
  destruct (int_of_float (c0 * 255)%float) as [r|] eqn:Hr; [|discriminate].
  destruct (getitem entry 1) as [c1|] eqn:H1; [|discriminate].
  destruct (int_of_float (c1 * 255)%float) as [g|] eqn:Hg; [|discriminate].
  destruct (getitem entry 2) as [c2|] eqn:H2; [|discriminate].
  destruct (int_of_float (c2 * 255)%float) as [b|] eqn:Hb; [|discriminate].
  intros [= <-]. by exists c0, c1, c2, r, g, b.
Qed.

(** C2. When [load_and_display_cells] returns, the glyph actor it added
    has one colour per row of the data frame.  For a row whose cell type
    is below the length of [cell_colors], the colour is made from the
    table entry at that type (Python indexing): each of the entry's
    first three components times 255, truncated to an integer, as the
    unsigned char array keeps it.  For a row whose cell type is the
    length of the table or more, it is the gray (180, 180, 180). *)
Theorem load_and_display_cells_colors (W : world) (root : string)
        (v v' : viewer) :
  load_and_display_cells W root v = (Ret tt, v') ->
  exists m r points colors sizes,
    pyMCDS_cells W root (output_dir v) = Ret m /\
    renderer v' = Some r /\
    GlyphActor points colors sizes ∈ props r /\
    length colors = length (rows (get_cell_df m)) /\
    forall i c,
      rows (get_cell_df m) !! i = Some c ->
      exists col,
        colors !! i = Some col /\
        (cell_type c < Z.of_nat (length (cell_colors v)) ->
         exists entry c0 c1 c2 r g b,
           getitem (cell_colors v) (cell_type c) = Ret entry /\
           getitem entry 0 = Ret c0 /\ getitem entry 1 = Ret c1 /\
           getitem entry 2 = Ret c2 /\
           int_of_float (c0 * 255)%float = Ret r /\
           int_of_float (c1 * 255)%float = Ret g /\
           int_of_float (c2 * 255)%float = Ret b /\
           col = (r mod 256, g mod 256, b mod 256)) /\
        (Z.of_nat (length (cell_colors v)) <= cell_type c ->
         col = (180, 180, 180)).
Proof.
  intros (m & r & points & colors & sizes & Hm & Hr & Hin & Hlen & Hrows)
           %load_and_display_cells_arrays.
  exists m, r, points, colors, sizes. do 4 (split; [done|]).
  intros i c Hi. destruct (Hrows i c Hi) as (col & Hcol & Hcc & _).
  exists (uchar3 col). split; [done|]. unfold cell_color in Hcc. split.
  - intros Hlt. apply Z.ltb_lt in Hlt. rewrite Hlt in Hcc.
    unfold rbind in Hcc.
    destruct (getitem (cell_colors v) (cell_type c)) as [entry|e];
      [|discriminate].
    destruct (rgb255_ok _ _ Hcc)
      as (c0 & c1 & c2 & r0 & g0 & b0 & H0 & H1 & H2 & Hr0 & Hg0 & Hb0 & ->).
    by exists entry, c0, c1, c2, r0, g0, b0.
  - intros Hge. apply Z.ltb_ge in Hge. rewrite Hge in Hcc.
    injection Hcc as <-. reflexivity.
Qed.

(** C8, amended. When [load_and_display_cells] returns, a row whose
    cell type [ct] is negative and not below minus the length of
    [cell_colors] has the colour made from the table entry at length
    plus [ct] (each of its first three components times 255, truncated,
    as the unsigned char array keeps it): the table is read from its
    end, the gray branch is not taken. *)
Theorem load_and_display_cells_negative_type (W : world) (root : string)
        (v v' : viewer) :
  load_and_display_cells W root v = (Ret tt, v') ->
  exists m r points colors sizes,
    pyMCDS_cells W root (output_dir v) = Ret m /\
    renderer v' = Some r /\
    GlyphActor points colors sizes ∈ props r /\
    forall i c,
      rows (get_cell_df m) !! i = Some c ->
      - Z.of_nat (length (cell_colors v)) <= cell_type c < 0 ->
      exists entry c0 c1 c2 r g b,
        cell_colors v
          !! Z.to_nat (Z.of_nat (length (cell_colors v)) + cell_type c)
        = Some entry /\
        getitem entry 0 = Ret c0 /\ getitem entry 1 = Ret c1 /\
        getitem entry 2 = Ret c2 /\
        int_of_float (c0 * 255)%float = Ret r /\
        int_of_float (c1 * 255)%float = Ret g /\
        int_of_float (c2 * 255)%float = Ret b /\
        colors !! i = Some (r mod 256, g mod 256, b mod 256).
Proof.
  intros (m & r & points & colors & sizes & Hm & Hr & Hin & Hlen & Hrows)
           %load_and_display_cells_arrays.
  exists m, r, points, colors, sizes. do 3 (split; [done|]).
  intros i c Hi Hct. destruct (Hrows i c Hi) as (col & Hcol & Hcc & _).
  destruct (getitem_negative (cell_colors v) (cell_type c) Hct)
    as (entry & Hentry & Hget).
  unfold cell_color in Hcc.
  replace (cell_type c <? Z.of_nat (length (cell_colors v))) with true in Hcc
    by (symmetry; apply Z.ltb_lt; lia).
  rewrite Hget in Hcc. cbn [rbind] in Hcc.
  destruct (rgb255_ok _ _ Hcc)
    as (c0 & c1 & c2 & r0 & g0 & b0 & H0 & H1 & H2 & Hr0 & Hg0 & Hb0 & ->).
  by exists entry, c0, c1, c2, r0, g0, b0.
Qed.

Import Samples.

Lemma load_and_display_cells_colors_witness :
  exists m r points colors sizes,
    pyMCDS_cells two_frames "output00000003.xml" (output_dir opened) = Ret m /\
    renderer (load_and_display_cells two_frames "output00000003.xml" opened).2
    = Some r /\
    GlyphActor points colors sizes ∈ props r /\
    length colors = length (rows (get_cell_df m)) /\
    forall i c,
      rows (get_cell_df m) !! i = Some c ->
      exists col,
        colors !! i = Some col /\
        (cell_type c < Z.of_nat (length (cell_colors opened)) ->
         exists entry c0 c1 c2 r g b,
           getitem (cell_colors opened) (cell_type c) = Ret entry /\
           getitem entry 0 = Ret c0 /\ getitem entry 1 = Ret c1 /\
           getitem entry 2 = Ret c2 /\
           int_of_float (c0 * 255)%float = Ret r /\
           int_of_float (c1 * 255)%float = Ret g /\
           int_of_float (c2 * 255)%float = Ret b /\
           col = (r mod 256, g mod 256, b mod 256)) /\
        (Z.of_nat (length (cell_colors opened)) <= cell_type c ->
         col = (180, 180, 180)).
Proof.
  apply (load_and_display_cells_colors two_frames "output00000003.xml" opened).
  vm_compute. reflexivity.
Defined.

Lemma load_and_display_cells_negative_type_witness :
  exists m r points colors sizes,
    pyMCDS_cells two_frames "output00000003.xml" (output_dir opened) = Ret m /\
    renderer (load_and_display_cells two_frames "output00000003.xml" opened).2
    = Some r /\
    GlyphActor points colors sizes ∈ props r /\
    forall i c,
      rows (get_cell_df m) !! i = Some c ->
      - Z.of_nat (length (cell_colors opened)) <= cell_type c < 0 ->
      exists entry c0 c1 c2 r g b,
        cell_colors opened
          !! Z.to_nat (Z.of_nat (length (cell_colors opened)) + cell_type c)
        = Some entry /\
        getitem entry 0 = Ret c0 /\ getitem entry 1 = Ret c1 /\
        getitem entry 2 = Ret c2 /\
        int_of_float (c0 * 255)%float = Ret r /\
        int_of_float (c1 * 255)%float = Ret g /\
        int_of_float (c2 * 255)%float = Ret b /\
        colors !! i = Some (r mod 256, g mod 256, b mod 256).
Proof.
  apply (load_and_display_cells_negative_type
           two_frames "output00000003.xml" opened).
  vm_compute. reflexivity.
Defined.

(** The four colours of the sample frame: two table entries, the last
    table entry for type -1, and gray for type 7. *)
Example sample_colors :
  exists points sizes,
    renderer (load_and_display_cells two_frames "output00000003.xml" opened).2
    = Some (Renderer
              (props (default (Renderer [] None) (renderer opened)) ++
                 [ GlyphActor points
                              [(255, 0, 127); (25, 51, 76); (25, 51, 76);
                               (180, 180, 180)]
                              sizes;
                   TextActor "FILE: output00000003.xml" 16 white (20, 60);
                   TextActor "PhysiCell Frame 3 - 4 cells - 1d, 1h, 1m"
                             16 white (20, 30) ])
              (Some dark_blue)).
Proof. do 2 eexists. vm_compute. reflexivity. Qed.

(** Components outside of [0, 1]: the entry (2, -1, 0.5) gives 510, -255
    and 127, which the array keeps as 254, 1 and 127. *)
Example sample_wide_entry :
  cell_color (cell_colors opened_wide_entry) 0 = Ret (510, -255, 127) /\
  exists points sizes,
    renderer (load_and_display_cells two_frames "output00000003.xml"
                opened_wide_entry).2
    = Some (Renderer
              (props (default (Renderer [] None) (renderer opened_wide_entry)) ++
                 [ GlyphActor points
                              [(254, 1, 127); (180, 180, 180); (254, 1, 127);
                               (180, 180, 180)]
                              sizes;
                   TextActor "FILE: output00000003.xml" 16 white (20, 60);
                   TextActor "PhysiCell Frame 3 - 4 cells - 1d, 1h, 1m"
                             16 white (20, 30) ])
              (Some dark_blue)).
Proof. split; [vm_compute; reflexivity|]. do 2 eexists. vm_compute. reflexivity. Qed.

(** C8 as stated fails twice.  With a table of one colour and a cell of
    type -2, the lookup raises [IndexError]: no colour is assigned and
    [load_and_display_cells] ends by that exception.  And with
    (0.706, 0.706, 0.706) as last table entry, a cell of type -1 gets
    that entry's colour, which is (180, 180, 180): reading the table
    from its end does not keep the colour from being the gray. *)
Lemma negative_type_claim_fails :
  (let table := cell_colors opened_one_color in
   table <> [] /\
   cell_color table (-2) = Raise (Exn IndexError "list index out of range") /\
   (exists m, pyMCDS_cells two_frames "output00000005.xml" "out" = Ret m /\
              map cell_type (rows (get_cell_df m)) = [-2]) /\
   (load_and_display_cells two_frames "output00000005.xml" opened_one_color).1
   = Raise (Exn IndexError "list index out of range")) /\
  (let table := cell_colors opened_gray_entry in
   table = [ [1; 0; 0]; [0.706; 0.706; 0.706] ]%float /\
   cell_color table (-1) = Ret (180, 180, 180) /\
   (exists m, pyMCDS_cells two_frames "output00000003.xml" "out" = Ret m /\
              map cell_type (rows (get_cell_df m)) = [0; 1; -1; 7]) /\
   exists points sizes,
     renderer (load_and_display_cells two_frames "output00000003.xml"
                 opened_gray_entry).2
     = Some (Renderer
               (props (default (Renderer [] None) (renderer opened_gray_entry)) ++
                  [ GlyphActor points
                               [(255, 0, 0); (180, 180, 180);
                                (180, 180, 180); (180, 180, 180)]
                               sizes;
                    TextActor "FILE: output00000003.xml" 16 white (20, 60);
                    TextActor "PhysiCell Frame 3 - 4 cells - 1d, 1h, 1m"
                              16 white (20, 30) ])
               (Some dark_blue))).
Proof.
  cbv zeta. split.
  - split; [vm_compute; discriminate|].
    split; [vm_compute; reflexivity|].
    split; [eexists; split; vm_compute; reflexivity|].
    vm_compute. reflexivity.
  - split; [vm_compute; reflexivity|].
    split; [vm_compute; reflexivity|].
    split; [eexists; split; vm_compute; reflexivity|].
    do 2 eexists. vm_compute. reflexivity.
Qed.

Lemma update_frame_data_fallback_witness :
  exists v',
    update_frame_data two_frames opened_one_color = (Ret tt, v') /\
    renderer v' =
      Some (Renderer [ frame_text opened_one_color;
                       no_data_text opened_one_color;
                       demo_sphere ]
                     (Some dark_blue)).
Proof.
  pose (r := default (Renderer [] None) (renderer opened_one_color)).
  assert (Hr : renderer opened_one_color = Some r)
    by (vm_compute; reflexivity).
  assert (Hxml : path_exists two_frames (xml_path opened_one_color) = false)
    by (vm_compute; reflexivity).
  destruct (update_frame_data_fallback two_frames opened_one_color r Hr Hxml)
    as (v' & Hrun & _ & Hscene & _).
  exists v'. split; [exact Hrun|].
  rewrite Hscene.
  replace (path_exists two_frames (svg_path opened_one_color)) with false
    by (vm_compute; reflexivity).
  reflexivity.
Defined.

(** C1 as stated fails: on a viewer that has no renderer (none before
    [open_window], none after [close]) the first statement of
    [update_frame_data] raises [AttributeError]; nothing is probed,
    nothing is displayed, and the exception leaves the method.
    [set_current_frame] reaches it the same way. *)
Lemma update_frame_data_raises_without_renderer :
  path_exists no_files (xml_path unopened) = false /\
  update_frame_data no_files unopened
  = (Raise (Exn AttributeError
                "'NoneType' object has no attribute 'RemoveAllViewProps'"),
     unopened) /\
  (set_current_frame no_files 1 unopened).1
  = Raise (Exn AttributeError
               "'NoneType' object has no attribute 'RemoveAllViewProps'") /\
  (update_frame_data two_frames (close opened).2).1
  = Raise (Exn AttributeError
               "'NoneType' object has no attribute 'RemoveAllViewProps'").
Proof. repeat split; vm_compute; reflexivity. Qed.

End ViewerFacts.

(* ===================================================================== *)
(** * Spot checks of the runtime model *)
(* ===================================================================== *)

Example getitem_from_end : Py.getitem [10; 20; 30] (-1) = Py.Ret 30.
Proof. reflexivity. Qed.

Example to_float32_tenth :
  VtkView.to_float32 0.1 = 0.10000000149011612%float.
Proof. vm_compute. reflexivity. Qed.

Example to_float32_odd :
  VtkView.to_float32 16777217 = 16777216%float.
Proof. vm_compute. reflexivity. Qed.

Example to_float32_beyond :
  VtkView.to_float32 1e39 = infinity.
Proof. vm_compute. reflexivity. Qed.

Example uchar3_wide : VtkView.uchar3 (510, -255, 127) = (254, 1, 127).
Proof. reflexivity. Qed.

Example getitem_too_low :
  Py.getitem [10; 20; 30] (-4)
  = Py.Raise (Py.Exn Py.IndexError "list index out of range").
Proof. reflexivity. Qed.

Example lower_mingw : Py.lower "MINGW64_NT-10.0" = "mingw64_nt-10.0".
Proof. reflexivity. Qed.

Example fmt_08d_42 : Py.fmt_08d 42 = "00000042".
Proof. reflexivity. Qed.

Example fmt_08d_minus_1 : Py.fmt_08d (-1) = "-0000001".
Proof. reflexivity. Qed.

Example fmt_08d_wide : Py.fmt_08d 123456789 = "123456789".
Proof. reflexivity. Qed.

Example int_of_float_half : Py.int_of_float (0.5 * 255)%float = Py.Ret 127.
Proof. reflexivity. Qed.

Example time_str_sample : VtkView.time_str 1501.5%float = Py.Ret "1d, 1h, 1m".
Proof. vm_compute. reflexivity. Qed.

Example time_str_negative :
  VtkView.time_str (-61.5)%float = Py.Ret "0d, -1h, -1m".
Proof. vm_compute. reflexivity. Qed.

Example new_name_windows :
  DownloadBinary.new_name "template-win.tar.gz" = "project.exe".
Proof. reflexivity. Qed.


(* ===================================================================== *)
(** * Further properties of the download script *)
(* ===================================================================== *)

Section DownloadRuns.
Import Py DownloadBinary.
Local Open Scope script_scope.

(** ** Steps that only print *)

Lemma console_only_ret {A} (a : A) : console_only (ret a).
Proof. exists (Ok a), []. intros h. by rewrite printed_nil. Qed.

Lemma console_only_exit {A} c : console_only (@exit A c).
Proof. exists (Exit c), []. intros h. by rewrite printed_nil. Qed.

Lemma console_only_raise {A} x : console_only (@raise A x).
Proof. exists (Uncaught x), []. intros h. by rewrite printed_nil. Qed.

Lemma console_only_print s : console_only (print s).
Proof. exists (Ok tt), [s]. intros h. apply print_printed. Qed.

Lemma console_only_bind {A B} (m : script A) (k : A -> script B) :
  console_only m -> (forall a, console_only (k a)) -> console_only (bind m k).
Proof.
  intros (o & ls & Hm) Hk. destruct o as [a|c|x].
  - destruct (Hk a) as (o' & ls' & Hka). exists o', (ls ++ ls')%list.
    intros h. unfold bind. rewrite Hm, Hka. by rewrite printed_app.
  - exists (Exit c), ls. intros h. unfold bind. by rewrite Hm.
  - exists (Uncaught x), ls. intros h. unfold bind. by rewrite Hm.
Qed.

Ltac console :=
  repeat first
    [ apply console_only_ret | apply console_only_exit
    | apply console_only_raise | apply console_only_print
    | apply console_only_bind; [|intros ?]
    | match goal with
      | |- console_only (if ?b then _ else _) => destruct b
      | |- console_only (match ?o with _ => _ end) => destruct o
      end ].

Lemma console_only_select_model args : console_only (select_model args).
Proof.
  unfold select_model, choose_model, check_model, print_usage, print2.
  console.
Qed.

Lemma console_only_locate e model : console_only (locate e model).
Proof. unfold locate, platform_file, make_url, print2. console. Qed.

(** ** What the first two stages can return *)

Lemma lookup_model_keys d k :
  str_in k (keys d) = true -> exists v, lookup_model d k = Some v.
Proof.
  unfold str_in, keys. induction d as [|[k' v] d IH]; cbn; [discriminate|].
  destruct (String.eqb k k'); [eauto|]. exact IH.
Qed.

Lemma lookup_model_release model base :
  lookup_model list_models model = Some base -> base ∈ release_urls.
Proof.
  unfold list_models, release_urls. cbn [lookup_model].
  repeat (destruct (String.eqb model _);
          [intros [= <-]; set_solver|]).
  discriminate.
Qed.

(** [select_model] ends with a listed model or with exit status 1. *)
Lemma select_model_cases args h o h' :
  select_model args h = (o, h') ->
  (exists model base, o = Ok model /\
                      lookup_model list_models model = Some base) \/
  o = Exit 1.
Proof.
  unfold select_model, choose_model, check_model, print_usage, bind, print2,
    print, ret, exit, raise.
  destruct (length args <? 2)%nat eqn:Hlen; cbn [stdout disk requests].
  - intros [= <- <-]. left. by exists "template_BM", physiboss_release.
  - destruct (args !! 1%nat) as [a|] eqn:Ha; cbn [stdout disk requests].
    + destruct (str_in a ["-h"; "--help"]) eqn:Hhelp; cbn [orb].
      * intros [= <- <-]. by right.
      * destruct (str_in a (keys list_models)) eqn:Hin; cbn [negb];
          intros [= <- <-]; [|by right].
        left. destruct (lookup_model_keys _ _ Hin) as [base Hbase].
        by exists a, base.
    + apply lookup_ge_None in Ha. apply Nat.ltb_ge in Hlen. lia.
Qed.

(** For a listed model, [locate] ends with an archive name and a URL or
    with exit status 1. *)
Lemma locate_cases e model base h o h' :
  lookup_model list_models model = Some base ->
  locate e model h = (o, h') ->
  (exists suffix, suffix ∈ suffixes /\
                  o = Ok (model ++ suffix, base ++ model ++ suffix)) \/
  o = Exit 1.
Proof.
  intros Hbase.
  unfold locate, platform_file, make_url, bind, print2, print, ret, exit, raise.
  rewrite Hbase. unfold suffixes.
  destruct (lower (os_type e) =? "darwin")%string;
    [|destruct (startswith (lower (os_type e)) "win"
                || startswith (lower (os_type e)) "msys_nt"
                || startswith (lower (os_type e)) "mingw64_nt");
      [|destruct (startswith (lower (os_type e)) "linux")]];
    cbn [stdout disk requests]; intros [= <- <-];
    first [by right | left; eexists; split; [|reflexivity]; set_solver].
Qed.

Lemma stage_frame {A} (m : script A) h o h' :
  console_only m -> m h = (o, h') ->
  disk h' = disk h /\ requests h' = requests h.
Proof. intros (o0 & ls & Hm). rewrite Hm. intros [= <- <-]. done. Qed.

(** The script after its first two stages. *)
Lemma main_staged e h model h1 mb_file url h2 :
  select_model (argv e) h = (Ok model, h1) ->
  locate e model h1 = (Ok (mb_file, url), h2) ->
  main e h =
    bind (fetch_and_untar e mb_file url) (fun _ => make_executable mb_file) h2 /\
  disk h2 = disk h /\ requests h2 = requests h.
Proof.
  intros Hsel Hloc. split.
  - unfold main, install, bind at 1 2. rewrite Hsel.
    unfold bind at 1 2. rewrite Hloc. reflexivity.
  - destruct (stage_frame _ _ _ _ (console_only_select_model _) Hsel) as [Hd Hr].
    destruct (stage_frame _ _ _ _ (console_only_locate _ _) Hloc) as [Hd' Hr'].
    split; congruence.
Qed.

(** ** Every way a run can end *)

(** The runs of [main], sorted by where they stop. *)
Lemma main_cases e h :
  (* stopped before the download *)
  ((main e h).1 = Exit 1 /\
   disk (main e h).2 = disk h /\ requests (main e h).2 = requests h) \/
  exists model base suffix,
    lookup_model list_models model = Some base /\ suffix ∈ suffixes /\
    let mb_file := model ++ suffix in
    let url := base ++ mb_file in
    requests (main e h).2 = (requests h ++ [url])%list /\
    match server e url with
    | None =>
        (main e h).1 = Uncaught (Exn URLError url) /\
        disk (main e h).2 = disk h
    | Some body =>
        let d1 := <[mb_file := File body (archive_mode (disk h) mb_file)]> (disk h) in
        match body with
        | TarGz (first :: rest) =>
            let r := extract e (first :: rest) (m_name first) d1 in
            match r.1, r.2 !! mb_file with
            | Ret _, Some _ =>
                let d3 := delete mb_file r.2 in
                match d3 !! new_name mb_file with
                | Some f =>
                    (main e h).1 = Ok tt /\
                    disk (main e h).2 = <[new_name mb_file := executable f]> d3
                | None =>
                    (main e h).1
                    = Uncaught (Exn FileNotFoundError (new_name mb_file)) /\
                    disk (main e h).2 = d3
                end
            | _, _ => (main e h).1 = Exit 1 /\ disk (main e h).2 = r.2
            end
        | _ => (main e h).1 = Exit 1 /\ disk (main e h).2 = d1
        end
    end.
Proof.
  destruct (select_model (argv e) h) as [o1 h1] eqn:Hsel.
  destruct (select_model_cases _ _ _ _ Hsel) as [(model & base & -> & Hbase)| ->].
  2:{ left. unfold main, bind. rewrite Hsel. cbn [fst snd].
      destruct (stage_frame _ _ _ _ (console_only_select_model _) Hsel).
      done. }
  destruct (locate e model h1) as [o2 h2] eqn:Hloc.
  destruct (locate_cases _ _ _ _ _ _ Hbase Hloc) as [(suffix & Hsuf & ->)| ->].
  2:{ left. unfold main, install, bind. rewrite Hsel, Hloc. cbn [fst snd].
      destruct (stage_frame _ _ _ _ (console_only_select_model _) Hsel) as [Hd Hr].
      destruct (stage_frame _ _ _ _ (console_only_locate _ _) Hloc) as [Hd' Hr'].
      repeat split; congruence. }
  right. exists model, base, suffix. do 2 (split; [done|]). cbv zeta.
  destruct (main_staged _ _ _ _ _ _ _ Hsel Hloc) as (-> & Hd & Hr).
  unfold bind. rewrite fetch_and_untar_eq, Hd, Hr.
  destruct (server e (base ++ model ++ suffix)) as [[raw|[|first rest]]|];
    cbv zeta; cbn [fst snd disk requests]; try done.
  destruct (extract e (first :: rest) (m_name first) _) as [[[]|x] dx];
    cbn [fst snd disk requests]; [|done].
  destruct (dx !! (model ++ suffix)) as [a|]; cbn [fst snd disk requests];
    [|done].
  rewrite make_executable_eq. cbn [disk requests].
  destruct (delete (model ++ suffix) dx !! new_name (model ++ suffix)) eqn:Hf;
    cbn [fst snd disk requests with_disk]; done.
Qed.

(** X1. The [try] block of lines 101-126 lets nothing out: whatever
    opening the archive, the library's extraction or the removal raise,
    the block either completes, and then nothing is left under the
    archive's name, or the handler prints its line and the script exits
    with status 1. *)
Theorem untar_outcomes (e : env) (mb_file : string) (h : host) :
  (untar e mb_file h).1 = Ok tt /\ disk (untar e mb_file h).2 !! mb_file = None \/
  (untar e mb_file h).1 = Exit 1 /\
  exists h0, (untar e mb_file h).2 = printed ["! Error untarring the file"] h0.
Proof.
  unfold untar, try_except.
  match goal with
  | |- context [match ?body h with _ => _ end] =>
      destruct (body h) as [[[]|c|x] h0] eqn:Hbody
  end.
  - left. split; [done|]. cbn [snd].
    revert Hbody.
    unfold tarfile_open, tar_extract, os_remove, bind, get_disk, set_disk,
      print, ret, raise.
    destruct (disk h !! mb_file) as [[[raw|ms] mode]|]; try discriminate.
    destruct (map m_name ms !! 0%nat) as [name|]; [|discriminate].
    cbn -[insert lookup delete].
    destruct (extract e ms name (disk h)) as [[[]|x] dx];
      cbn -[insert lookup delete]; [|discriminate].
    destruct (dx !! mb_file); [|discriminate].
    intros [= <-]. cbn -[insert lookup delete]. apply lookup_delete_eq.
  - right. split; [done|]. by exists h0.
  - right. split; [done|]. by exists h0.
Qed.

(** X2. A run makes at most one request, and only for the archive of a
    model of [list_models] with one of the three platform suffixes, below
    one of the two release directories; a run that makes no request
    leaves the directory as it was. *)
Theorem main_requests (e : env) (h : host) :
  (requests (main e h).2 = requests h /\ disk (main e h).2 = disk h) \/
  exists model base suffix,
    lookup_model list_models model = Some base /\
    base ∈ release_urls /\ suffix ∈ suffixes /\
    requests (main e h).2
    = (requests h ++ [(base ++ model ++ suffix)%string])%list.
Proof.
  destruct (main_cases e h) as [(_ & Hd & Hr)|(model & base & suffix & Hb & Hs & H)].
  - by left.
  - right. exists model, base, suffix. cbv zeta in H. destruct H as [H _].
    split; [done|]. split; [by eapply lookup_model_release|]. done.
Qed.

(** ** Runs that reach the download *)

Lemma getmember_name ms name m :
  getmember ms name = Some m -> m_name m = name.
Proof.
  unfold getmember. intros [_ H]%find_some. by apply String.eqb_eq in H.
Qed.

Lemma located_not_target e model h mb_file url h' :
  locate e model h = (Ok (mb_file, url), h') ->
  new_name mb_file <> mb_file.
Proof.
  intros ((suffix & Hs & ->) & _)%locate_ok. by apply new_name_not_archive.
Qed.

Lemma executable_twice f : executable (executable f) = executable f.
Proof.
  unfold executable. cbn. f_equal.
  by rewrite <- Z.lor_assoc, Z.lor_diag.
Qed.

(** X3. When the server refuses the request, the script ends by the
    [URLError] that [urlretrieve] raises: one request was made and the
    directory is as before. *)
Theorem main_request_refused (e : env) (h : host) (model : string)
        (h1 : host) (mb_file url : string) (h2 : host) :
  select_model (argv e) h = (Ok model, h1) ->
  locate e model h1 = (Ok (mb_file, url), h2) ->
  server e url = None ->
  main e h =
    (Uncaught (Exn URLError url),
     Host (stdout h2) (disk h) (requests h ++ [url])).
Proof.
  intros Hsel Hloc Hsrv.
  destruct (main_staged _ _ _ _ _ _ _ Hsel Hloc) as (-> & Hd & Hr).
  unfold bind. rewrite fetch_and_untar_eq, Hsrv, Hd, Hr. reflexivity.
Qed.

(** X4. When what the server sent is not an archive, or an archive
    without members, the script prints [! Error untarring the file] and
    exits with status 1; the downloaded file stays in the directory under
    the archive's name, and no other path is touched. *)
Theorem main_untar_failure (e : env) (h : host) (model : string)
        (h1 : host) (mb_file url : string) (h2 : host) (body : content) :
  select_model (argv e) h = (Ok model, h1) ->
  locate e model h1 = (Ok (mb_file, url), h2) ->
  server e url = Some body ->
  (forall first rest, body <> TarGz (first :: rest)) ->
  main e h =
    (Exit 1,
     Host (stdout h2 ++ [ "> Uncompressing the model";
                          "! Error untarring the file" ])
          (<[mb_file := File body (archive_mode (disk h) mb_file)]> (disk h))
          (requests h ++ [url])).
Proof.
  intros Hsel Hloc Hsrv Hbody.
  destruct (main_staged _ _ _ _ _ _ _ Hsel Hloc) as (-> & Hd & Hr).
  unfold bind. rewrite fetch_and_untar_eq, Hsrv, Hd, Hr. cbv zeta.
  destruct body as [raw|[|first rest]]; [reflexivity|reflexivity|].
  by destruct (Hbody first rest).
Qed.

(** X5. When nothing unwritable lies at the archive's path, the server
    sends an archive with a first member, and the library's extraction
    of that member writes one file, under the chmod target's name, the
    script ends normally: the directory is the initial one without
    anything under the archive's name and with the extracted file,
    owner-execute bit set, under the target's name. *)
Theorem main_installs (e : env) (h : host) (model : string)
        (h1 : host) (mb_file url : string) (h2 : host)
        (first : member) (rest : list member) (f : file) :
  select_model (argv e) h = (Ok model, h1) ->
  locate e model h1 = (Ok (mb_file, url), h2) ->
  overwritable (disk h) mb_file = true ->
  server e url = Some (TarGz (first :: rest)) ->
  (let d1 := <[mb_file := File (TarGz (first :: rest))
                               (archive_mode (disk h) mb_file)]> (disk h) in
   extract e (first :: rest) (m_name first) d1
   = (Ret tt, <[new_name mb_file := f]> d1)) ->
  main e h =
    (Ok tt,
     Host (stdout h2 ++ [ "> Uncompressing the model";
                          "binary_name = " ++ m_name first ++ newline ])
          (<[new_name mb_file := executable f]> (delete mb_file (disk h)))
          (requests h ++ [url])).
Proof.
  intros Hsel Hloc _ Hsrv Hx. cbv zeta in Hx.
  pose proof (located_not_target _ _ _ _ _ _ Hloc) as Hne.
  destruct (main_staged _ _ _ _ _ _ _ Hsel Hloc) as (-> & Hd & Hr).
  unfold bind. rewrite fetch_and_untar_eq, Hsrv, Hd, Hr. cbv zeta.
  rewrite Hx. cbn [fst snd].
  rewrite lookup_insert_ne, lookup_insert_eq by done.
  rewrite make_executable_eq. cbn [disk].
  rewrite lookup_delete_ne, lookup_insert_eq by done.
  unfold with_disk. cbn [stdout disk requests]. do 2 f_equal.
  apply map_eq. intros p.
  destruct (decide (p = new_name mb_file)) as [->|Hp].
  - by rewrite !lookup_insert_eq.
  - rewrite !(lookup_insert_ne _ (new_name mb_file)) by done.
    destruct (decide (p = mb_file)) as [->|Hq].
    + by rewrite !lookup_delete_eq.
    + rewrite !lookup_delete_ne by done.
      rewrite lookup_insert_ne by done. by rewrite lookup_insert_ne.
Qed.

(** X6. [make_executable], when it returns, has changed one thing: the
    mode of the chmod target, to which bit 6 (owner execute) was added;
    its data, its other mode bits, all other files, the console and the
    request log are as before, and doing it again changes nothing. *)
Theorem make_executable_effect (mb_file : string) (h h1 : host) :
  make_executable mb_file h = (Ok tt, h1) ->
  exists f,
    disk h !! new_name mb_file = Some f /\
    disk h1 !! new_name mb_file = Some (executable f) /\
    f_data (executable f) = f_data f /\
    (forall n, 0 <= n ->
               Z.testbit (f_mode (executable f)) n
               = Z.testbit (f_mode f) n || (n =? 6)) /\
    (forall p, p <> new_name mb_file -> disk h1 !! p = disk h !! p) /\
    stdout h1 = stdout h /\ requests h1 = requests h /\
    make_executable mb_file h1 = (Ok tt, h1).
Proof.
  rewrite make_executable_eq.
  destruct (disk h !! new_name mb_file) as [f|] eqn:Hf; [|discriminate].
  intros [= <-]. exists f. unfold with_disk. cbn [stdout disk requests].
  split; [done|]. split; [apply lookup_insert_eq|]. split; [done|].
  split.
  { intros n Hn. unfold executable, S_IEXEC. cbn [f_mode].
    rewrite Z.lor_spec. f_equal. change 64 with (2 ^ 6).
    rewrite Z.pow2_bits_eqb by lia. apply Z.eqb_sym. }
  split; [intros p Hp; by rewrite lookup_insert_ne|].
  do 2 (split; [done|]).
  rewrite make_executable_eq. cbn [disk]. rewrite lookup_insert_eq.
  unfold with_disk. cbn [stdout disk requests].
  by rewrite executable_twice, insert_insert_eq.
Qed.

Lemma owner_write_executable f : owner_write (executable f) = owner_write f.
Proof.
  unfold owner_write, executable, S_IEXEC. cbn [f_mode].
  rewrite Z.lor_spec. change 64 with (2 ^ 6).
  rewrite Z.pow2_bits_eqb by lia. cbn. apply orb_false_r.
Qed.

(** X7. With an archive library that, wherever the chmod target's path
    is free or holds a file its owner may write, unpacks the first
    member to one and the same owner-writable file under that path, and
    with nothing unwritable in the way at the start: the script ends
    normally, and running it again in the directory it left, against the
    same server, ends normally again and leaves the same directory. *)
Theorem main_rerun (e : env) (h : host) (model : string)
        (h1 : host) (mb_file url : string) (h2 : host)
        (first : member) (rest : list member) (f : file) :
  select_model (argv e) h = (Ok model, h1) ->
  locate e model h1 = (Ok (mb_file, url), h2) ->
  server e url = Some (TarGz (first :: rest)) ->
  (forall d, overwritable d (new_name mb_file) = true ->
             extract e (first :: rest) (m_name first) d
             = (Ret tt, <[new_name mb_file := f]> d)) ->
  owner_write f = true ->
  overwritable (disk h) mb_file = true ->
  overwritable (disk h) (new_name mb_file) = true ->
  exists h' h'',
    main e h = (Ok tt, h') /\
    main e h' = (Ok tt, h'') /\
    disk h' = <[new_name mb_file := executable f]> (delete mb_file (disk h)) /\
    disk h'' = disk h'.
Proof.
  intros Hsel Hloc Hsrv Hlib Hf _ Hfree.
  pose proof (located_not_target _ _ _ _ _ _ Hloc) as Hne.
  assert (Hrun : forall h0 h01 h02,
             select_model (argv e) h0 = (Ok model, h01) ->
             locate e model h01 = (Ok (mb_file, url), h02) ->
             overwritable (disk h0) (new_name mb_file) = true ->
             main e h0 =
               (Ok tt,
                Host (stdout h02 ++ [ "> Uncompressing the model";
                                      "binary_name = " ++ m_name first ++ newline ])
                     (<[new_name mb_file := executable f]>
                        (delete mb_file (disk h0)))
                     (requests h0 ++ [url]))).
  { intros h0 h01 h02 Hsel0 Hloc0 Hfree0.
    destruct (main_staged _ _ _ _ _ _ _ Hsel0 Hloc0) as (-> & Hd & Hr).
    unfold bind. rewrite fetch_and_untar_eq, Hsrv, Hd, Hr. cbv zeta.
    rewrite Hlib.
    2:{ unfold overwritable in *. by rewrite lookup_insert_ne. }
    cbn [fst snd].
    rewrite lookup_insert_ne, lookup_insert_eq by done.
    rewrite make_executable_eq. cbn [disk].
    rewrite lookup_delete_ne, lookup_insert_eq by done.
    unfold with_disk. cbn [stdout disk requests]. do 2 f_equal.
    apply map_eq. intros p.
    destruct (decide (p = new_name mb_file)) as [->|Hp].
    - by rewrite !lookup_insert_eq.
    - rewrite !(lookup_insert_ne _ (new_name mb_file)) by done.
      destruct (decide (p = mb_file)) as [->|Hq].
      + by rewrite !lookup_delete_eq.
      + rewrite !lookup_delete_ne by done.
        rewrite lookup_insert_ne by done. by rewrite lookup_insert_ne. }
  destruct (console_only_select_model (argv e)) as (o1 & ls & Hsel').
  destruct (console_only_locate e model) as (o2 & ll & Hloc').
  assert (o1 = Ok model) as -> by (specialize (Hsel' h); congruence).
  assert (o2 = Ok (mb_file, url)) as -> by (specialize (Hloc' h1); congruence).
  eexists. eexists.
  split; [exact (Hrun _ _ _ Hsel Hloc Hfree)|].
  split.
  - apply (Hrun _ _ _ (Hsel' _) (Hloc' _)). cbn [disk].
    unfold overwritable. rewrite lookup_insert_eq.
    by rewrite owner_write_executable.
  - split; [reflexivity|]. cbn [disk].
    apply map_eq. intros p.
    destruct (decide (p = new_name mb_file)) as [->|Hp].
    + by rewrite !lookup_insert_eq.
    + rewrite !(lookup_insert_ne _ (new_name mb_file)) by done.
      destruct (decide (p = mb_file)) as [->|Hq].
      * by rewrite !lookup_delete_eq.
      * rewrite !lookup_delete_ne by done.
        rewrite lookup_insert_ne by done.
        by rewrite lookup_delete_ne.
Qed.

Import Samples.

Lemma main_request_refused_witness :
  main (rules_env server_down) fresh_host
  = (Uncaught (Exn URLError rules_url),
     Host (stdout (locate (rules_env server_down) "rules"
                     (select_model ["download_binary.py"; "rules"] fresh_host).2).2)
          ∅ [rules_url]).
Proof.
  apply (main_request_refused (rules_env server_down) fresh_host "rules"
           (select_model ["download_binary.py"; "rules"] fresh_host).2
           "rules-linux.tar.gz" rules_url);
    vm_compute; reflexivity.
Defined.

Lemma main_untar_failure_witness :
  (main (rules_env server_page) fresh_host).1 = Exit 1 /\
  disk (main (rules_env server_page) fresh_host).2
  = {[ "rules-linux.tar.gz" := File (Raw "<html>Not Found</html>") 420 ]}.
Proof.
  rewrite (main_untar_failure (rules_env server_page) fresh_host "rules"
             (select_model ["download_binary.py"; "rules"] fresh_host).2
             "rules-linux.tar.gz" rules_url
             (locate (rules_env server_page) "rules"
                (select_model ["download_binary.py"; "rules"] fresh_host).2).2
             (Raw "<html>Not Found</html>"));
    [split; vm_compute; reflexivity
    |vm_compute; reflexivity..
    |intros first rest; discriminate].
Defined.

Lemma main_installs_witness :
  (main (rules_env server_project) fresh_host).1 = Ok tt /\
  disk (main (rules_env server_project) fresh_host).2
  = {[ "project" := File (Raw "ELF") 484 ]}.
Proof.
  rewrite (main_installs (rules_env server_project) fresh_host "rules"
             (select_model ["download_binary.py"; "rules"] fresh_host).2
             "rules-linux.tar.gz" rules_url
             (locate (rules_env server_project) "rules"
                (select_model ["download_binary.py"; "rules"] fresh_host).2).2
             (Member "project" "ELF" 420) [] (File (Raw "ELF") 420));
    [split; vm_compute; reflexivity|vm_compute; reflexivity..].
Defined.

Lemma make_executable_effect_witness :
  exists f,
    disk project_host !! "project" = Some f /\
    f_mode (executable f) = 484.
Proof.
  destruct (make_executable_effect "rules-linux.tar.gz" project_host
              (make_executable "rules-linux.tar.gz" project_host).2)
    as (f & Hf & _); [vm_compute; reflexivity|].
  exists f. split; [exact Hf|].
  vm_compute in Hf. injection Hf as <-. reflexivity.
Defined.

Lemma main_rerun_witness :
  exists h' h'',
    main (rules_env server_project) fresh_host = (Ok tt, h') /\
    main (rules_env server_project) h' = (Ok tt, h'') /\
    disk h' = {[ "project" := File (Raw "ELF") 484 ]} /\
    disk h'' = disk h'.
Proof.
  destruct (main_rerun (rules_env server_project) fresh_host "rules"
              (select_model ["download_binary.py"; "rules"] fresh_host).2
              "rules-linux.tar.gz" rules_url
              (locate (rules_env server_project) "rules"
                 (select_model ["download_binary.py"; "rules"] fresh_host).2).2
              (Member "project" "ELF" 420) [] (File (Raw "ELF") 420))
    as (h' & h'' & H1 & H2 & H3 & H4);
    [vm_compute; reflexivity..| | | | |].
  - intros d Hd. change (new_name "rules-linux.tar.gz") with "project" in *.
    change (extract (rules_env server_project)) with plain_extract.
    unfold plain_extract.
    change (getmember [Member "project" "ELF" 420]
              (m_name (Member "project" "ELF" 420)))
      with (Some (Member "project" "ELF" 420)).
    cbv iota beta zeta.
    change (strip_dot_slash _ _) with "project".
    rewrite Hd. reflexivity.
  - reflexivity.
  - vm_compute. reflexivity.
  - vm_compute. reflexivity.
  - exists h', h''. repeat split; assumption.
Defined.

(** An archive that lists a [README] before the binary: only the
    [README] is unpacked, and the run ends by the [FileNotFoundError] of
    the chmod target. *)
Example main_readme_first :
  (main (rules_env server_readme_first) fresh_host).1
  = Uncaught (Exn FileNotFoundError "project") /\
  disk (main (rules_env server_readme_first) fresh_host).2
  = {[ "README" := File (Raw "text") 420 ]}.
Proof. split; vm_compute; reflexivity. Qed.

(** An archive that lists the binary as [./project]: the library writes
    [project], and the run ends normally. *)
Example main_dot_slash :
  (main (rules_env server_dot_slash) fresh_host).1 = Ok tt /\
  disk (main (rules_env server_dot_slash) fresh_host).2
  = {[ "project" := File (Raw "ELF") 493 ]}.
Proof. split; vm_compute; reflexivity. Qed.

(** A read-only binary: the first run installs it, the second one is
    refused by the library, exits with status 1 and leaves the archive. *)
Example main_rerun_read_only :
  (main (rules_env server_read_only) fresh_host).1 = Ok tt /\
  (main (rules_env server_read_only)
        (main (rules_env server_read_only) fresh_host).2).1 = Exit 1 /\
  disk (main (rules_env server_read_only)
             (main (rules_env server_read_only) fresh_host).2).2
  = {[ "project" := File (Raw "ELF") 365;
       "rules-linux.tar.gz" := File (TarGz [Member "project" "ELF" 365]) 420 ]}.
Proof. repeat split; vm_compute; reflexivity. Qed.

End DownloadRuns.

(* ===================================================================== *)
(** * Further properties of the viewer *)
(* ===================================================================== *)

Section ViewerRuns.
Import Py VtkView.
Local Open Scope method_scope.

(** ** Methods that only add to the scene *)

Lemma grows_ret {A} (a : A) : grows (ret a).
Proof.
  intros v. split; [done|]. cbn. destruct (renderer v) as [r|]; [|done].
  exists []. by rewrite app_nil_r; destruct r.
Qed.

Lemma grows_same {A} (m : method A) :
  (forall v, attributes (m v).2 = attributes v /\
             renderer (m v).2 = renderer v) ->
  grows m.
Proof.
  intros Hm v. destruct (Hm v) as [Ha Hr]. split; [done|]. rewrite Hr.
  destruct (renderer v) as [r|]; [|done].
  exists []. by rewrite app_nil_r; destruct r.
Qed.

Lemma grows_raise {A} (e : exn) : grows (@raise A e).
Proof. by apply grows_same. Qed.

Lemma grows_lift {A} (r : result A) : grows (lift r).
Proof. by apply grows_same. Qed.

Lemma grows_self : grows self.
Proof. by apply grows_same. Qed.

Lemma grows_print s : grows (print s).
Proof. by apply grows_same. Qed.

Lemma grows_emit e : grows (modify (emit e)).
Proof. by apply grows_same. Qed.

Lemma grows_exists_ W p : grows (exists_ W p).
Proof. by apply grows_same. Qed.

Lemma grows_read_output W root : grows (read_output W root).
Proof. by apply grows_same. Qed.

Lemma grows_add_prop attr p : grows (add_prop attr p).
Proof.
  intros v. unfold add_prop. destruct (renderer v) as [r|] eqn:Hr; cbn.
  - split; [done|]. by exists [p].
  - by rewrite Hr.
Qed.

Lemma grows_bind {A B} (m : method A) (k : A -> method B) :
  grows m -> (forall a, grows (k a)) -> grows (bind m k).
Proof.
  intros Hm Hk v. unfold bind. destruct (Hm v) as [Ha Hr].
  destruct (m v) as [[a|e] v1]; cbn [snd] in *; [|done].
  destruct (Hk a v1) as [Ha' Hr']. split; [congruence|].
  destruct (renderer v) as [r|].
  - destruct Hr as [ps Hr]. rewrite Hr in Hr'. cbn in Hr'.
    destruct Hr' as [ps' Hr']. exists (ps ++ ps')%list.
    by rewrite Hr', <- app_assoc.
  - by rewrite Hr in Hr'.
Qed.

Lemma grows_try {A} (body : method A) (handler : exn -> method A) :
  grows body -> (forall e, grows (handler e)) -> grows (try_except body handler).
Proof.
  intros Hb Hh v. unfold try_except. destruct (Hb v) as [Ha Hr].
  destruct (body v) as [[a|e] v1]; cbn [snd] in *; [done|].
  destruct (is_Exception e); [|done].
  destruct (Hh e v1) as [Ha' Hr']. split; [congruence|].
  destruct (renderer v) as [r|].
  - destruct Hr as [ps Hr]. rewrite Hr in Hr'. cbn in Hr'.
    destruct Hr' as [ps' Hr']. exists (ps ++ ps')%list.
    by rewrite Hr', <- app_assoc.
  - by rewrite Hr in Hr'.
Qed.

Ltac grow :=
  repeat first
    [ apply grows_ret | apply grows_raise | apply grows_lift
    | apply grows_self | apply grows_print | apply grows_emit
    | apply grows_exists_ | apply grows_read_output | apply grows_add_prop
    | apply grows_bind; [|intros ?]
    | apply grows_try; [|intros ?]
    | match goal with
      | |- grows (if ?b then _ else _) => destruct b
      | |- grows (match ?o with _ => _ end) => destruct o
      end ].

Lemma grows_create_demo_sphere : grows create_demo_sphere.
Proof. unfold create_demo_sphere, AddActor. grow. Qed.

Lemma grows_load_and_display_cells W root :
  grows (load_and_display_cells W root).
Proof. unfold load_and_display_cells, AddActor, AddActor2D. grow. Qed.

Lemma grows_try_svg_fallback W : grows (try_svg_fallback W).
Proof.
  unfold try_svg_fallback, create_demo_sphere, AddActor, AddActor2D. grow.
Qed.

Lemma grows_render_if_window : grows render_if_window.
Proof. unfold render_if_window. grow. Qed.

(** ** Exceptions that [except Exception] catches *)

Lemma pure_Ret {A} (a : A) : pure_exceptions (Ret a).
Proof. intros e. discriminate. Qed.

Lemma pure_rbind {A B} (r : result A) (k : A -> result B) :
  pure_exceptions r -> (forall a, pure_exceptions (k a)) ->
  pure_exceptions (rbind r k).
Proof.
  intros Hr Hk e. unfold rbind. destruct r as [a|e']; [apply Hk|].
  intros [= <-]. by apply Hr.
Qed.

Lemma pure_getitem {A} (l : list A) i : pure_exceptions (getitem l i).
Proof.
  intros e. unfold getitem.
  repeat case_match; intros Hraise; try discriminate;
    by injection Hraise as <-.
Qed.

Lemma pure_int_of_float x : pure_exceptions (int_of_float x).
Proof.
  intros e. unfold int_of_float.
  destruct (Prim2SF x); intros H; try discriminate; by injection H as <-.
Qed.

Lemma pure_int_truediv a b : pure_exceptions (int_truediv a b).
Proof.
  intros e. unfold int_truediv.
  destruct (b =? 0); intros H; try discriminate; by injection H as <-.
Qed.

Lemma pure_float_of_int n : pure_exceptions (float_of_int n).
Proof.
  intros e. unfold float_of_int.
  case_match; intros Hraise; try discriminate; by injection Hraise as <-.
Qed.

Ltac pure_exc :=
  repeat first
    [ apply pure_Ret | apply pure_getitem | apply pure_int_of_float
    | apply pure_int_truediv | apply pure_float_of_int
    | apply pure_rbind; [|intros ?] ].

Lemma pure_rgb255 color : pure_exceptions (rgb255 color).
Proof. unfold rgb255. pure_exc. Qed.

Lemma pure_cell_color table ct : pure_exceptions (cell_color table ct).
Proof.
  unfold cell_color. case_match; [|apply pure_Ret].
  apply pure_rbind; [apply pure_getitem|apply pure_rgb255].
Qed.

Lemma pure_fill_arrays table cells g : pure_exceptions (fill_arrays table cells g).
Proof.
  revert g. induction cells as [|[[c z] radius] rest IH]; intros g;
    cbn [fill_arrays]; [apply pure_Ret|].
  apply pure_rbind; [apply pure_cell_color|]. intros col. apply IH.
Qed.

Lemma pure_time_str mins : pure_exceptions (time_str mins).
Proof. unfold time_str. pure_exc. Qed.

Lemma exc_same {A} (m : method A) :
  (forall v, exists a, (m v).1 = Ret a) -> exceptions_only m.
Proof. intros Hm v e He. destruct (Hm v) as [a Ha]. congruence. Qed.

Lemma exc_lift {A} (r : result A) : pure_exceptions r -> exceptions_only (lift r).
Proof. intros Hr v e. apply Hr. Qed.

Lemma exc_add_prop attr p : exceptions_only (add_prop attr p).
Proof.
  intros v e. unfold add_prop. destruct (renderer v); cbn; [discriminate|].
  by intros [= <-].
Qed.

Lemma exc_read_output W root :
  well_behaved W -> exceptions_only (read_output W root).
Proof. intros HW v e. unfold read_output. cbn. apply HW. Qed.

Lemma exc_bind {A B} (m : method A) (k : A -> method B) :
  exceptions_only m -> (forall a, exceptions_only (k a)) ->
  exceptions_only (bind m k).
Proof.
  intros Hm Hk v e. unfold bind. specialize (Hm v).
  destruct (m v) as [[a|e'] v1]; cbn [fst] in *; [apply Hk|].
  intros [= <-]. by apply Hm.
Qed.

Ltac exc :=
  repeat first
    [ apply exc_add_prop | apply exc_read_output; assumption
    | apply exc_lift; first [apply pure_fill_arrays | apply pure_time_str]
    | apply exc_same; intros ?; eexists; reflexivity
    | apply exc_bind; [|intros ?]
    | match goal with
      | |- exceptions_only (if ?b then _ else _) => destruct b
      end ].

Lemma exc_load_and_display_cells W root :
  well_behaved W -> exceptions_only (load_and_display_cells W root).
Proof.
  intros HW. unfold load_and_display_cells, AddActor, AddActor2D. exc.
Qed.

Lemma exc_try_svg_fallback W : exceptions_only (try_svg_fallback W).
Proof.
  unfold try_svg_fallback, create_demo_sphere, AddActor, AddActor2D. exc.
Qed.

Lemma exc_load_or_fallback W :
  well_behaved W -> exceptions_only (load_or_fallback W).
Proof.
  intros HW. unfold load_or_fallback.
  apply exc_bind; [exc|]. intros v. apply exc_bind; [exc|]. intros [|].
  - by apply exc_load_and_display_cells.
  - apply exc_try_svg_fallback.
Qed.

(** ** The redraw *)

Lemma update_frame_data_parts W :
  update_frame_data W = bind RemoveAllViewProps (fun _ => draw_frame W).
Proof. reflexivity. Qed.

Lemma grows_load_or_fallback W : grows (load_or_fallback W).
Proof.
  unfold load_or_fallback. apply grows_bind; [grow|]. intros v.
  apply grows_bind; [grow|]. intros [|].
  - apply grows_load_and_display_cells.
  - apply grows_try_svg_fallback.
Qed.

Lemma grows_on_error e : grows (on_error e).
Proof.
  unfold on_error, add_error_text, create_demo_sphere, AddActor, AddActor2D.
  grow.
Qed.

Lemma grows_after_caption W : grows (after_caption W).
Proof.
  unfold after_caption, add_orientation_axes.
  apply grows_bind; [|intros ?; grow; apply grows_render_if_window].
  apply grows_try; [apply grows_load_or_fallback|apply grows_on_error].
Qed.

Lemma on_error_returns e v r :
  renderer v = Some r ->
  on_error e v =
    (Ret tt,
     set_renderer
       (Some (Renderer (props r ++ [demo_sphere; error_text (exn_msg e)])
                       (background r)))
       (emit (Console ("Error loading cell data: " ++ exn_msg e)) v)).
Proof.
  intros Hr. destruct v as [od cf cc qw vw win rd ia ut tr].
  cbn in Hr. subst rd.
  unfold on_error, add_error_text, create_demo_sphere, AddActor, AddActor2D,
    add_prop, print, modify, bind.
  cbn -[String.append]. by rewrite <- app_assoc.
Qed.

Lemma render_if_window_returns v :
  render_if_window v
  = (Ret tt, if vtk_win v is Some _ then emit Render v else v).
Proof. unfold render_if_window, bind, self. by destruct (vtk_win v). Qed.

(** With a renderer and a well-behaved parser, what follows the caption
    returns normally. *)
Lemma after_caption_returns W v r :
  well_behaved W -> renderer v = Some r ->
  (after_caption W v).1 = Ret tt.
Proof.
  intros HW Hr. unfold after_caption, bind at 1, try_except.
  pose proof (exc_load_or_fallback W HW v) as Hexc.
  destruct (grows_load_or_fallback W v) as [_ Hgrow]. rewrite Hr in Hgrow.
  destruct Hgrow as [ps Hgrow].
  destruct (load_or_fallback W v) as [[[]|e] v1]; cbn [fst snd] in *.
  - unfold bind, add_orientation_axes, ret.
    by rewrite render_if_window_returns.
  - rewrite (Hexc e eq_refl). rewrite (on_error_returns _ _ _ Hgrow).
    unfold bind, add_orientation_axes, ret.
    by rewrite render_if_window_returns.
Qed.

Lemma update_frame_data_returns W v r :
  well_behaved W -> renderer v = Some r ->
  exists v' ps,
    update_frame_data W v = (Ret tt, v') /\
    renderer v' = Some (Renderer (frame_text v :: ps) (background r)) /\
    attributes v' = attributes v.
Proof.
  intros HW Hr. rewrite update_frame_data_parts.
  unfold bind at 1, RemoveAllViewProps. rewrite Hr.
  unfold draw_frame, bind at 1, add_frame_info_text, bind, self, AddActor2D,
    add_prop.
  cbn [renderer set_renderer props background app].
  match goal with
  | |- context [after_caption W ?x] => set (v1 := x)
  end.
  assert (Hr1 : renderer v1 = Some (Renderer [frame_text v] (background r)))
    by (destruct v; reflexivity).
  pose proof (after_caption_returns W v1 _ HW Hr1) as Hret.
  destruct (grows_after_caption W v1) as [Hattr Hgrow].
  rewrite Hr1 in Hgrow. destruct Hgrow as [ps Hgrow].
  destruct (after_caption W v1) as [res v']. cbn [fst snd] in *. subst res.
  exists v', ps. split; [done|]. split; [exact Hgrow|].
  rewrite Hattr. by destruct v.
Qed.

(** X8. With a renderer and a parser that raises nothing outside
    [Exception], [update_frame_data] returns normally whatever the files
    are: the scene it leaves starts with the caption of the current frame
    and keeps the renderer's background. *)
Theorem update_frame_data_never_raises (W : world) (v : viewer)
        (r : renderer_t) :
  well_behaved W -> renderer v = Some r ->
  exists v' ps,
    update_frame_data W v = (Ret tt, v') /\
    renderer v' = Some (Renderer (frame_text v :: ps) (background r)).
Proof.
  intros HW Hr.
  destruct (update_frame_data_returns W v r HW Hr) as (v' & ps & H1 & H2 & _).
  by exists v', ps.
Qed.

Lemma RemoveAllViewProps_attributes v :
  attributes (RemoveAllViewProps v).2 = attributes v /\
  option_map background (renderer (RemoveAllViewProps v).2)
  = option_map background (renderer v).
Proof.
  unfold RemoveAllViewProps. destruct v as [od cf cc qw vw win [r|] ia ut tr];
    done.
Qed.

Lemma grows_draw_frame W : grows (draw_frame W).
Proof.
  unfold draw_frame, add_frame_info_text, AddActor2D.
  apply grows_bind; [grow|]. intros _. apply grows_after_caption.
Qed.

Lemma grows_background {A} (m : method A) v :
  grows m ->
  option_map background (renderer (m v).2) = option_map background (renderer v).
Proof.
  intros Hm. destruct (Hm v) as [_ H]. destruct (renderer v) as [r|].
  - destruct H as [ps ->]. done.
  - by rewrite H.
Qed.

(** X9. [update_frame_data] changes nothing of the viewer but the props
    of its scene and the trace: output directory, frame number, colour
    table, windows, interactor, timer and background are as before,
    whether it returns or raises. *)
Theorem update_frame_data_attributes (W : world) (v : viewer) :
  attributes (update_frame_data W v).2 = attributes v /\
  option_map background (renderer (update_frame_data W v).2)
  = option_map background (renderer v).
Proof.
  rewrite update_frame_data_parts. unfold bind.
  destruct (RemoveAllViewProps_attributes v) as [Ha Hb].
  destruct (RemoveAllViewProps v) as [[[]|e] v0]; cbn [snd] in *; [|done].
  destruct (grows_draw_frame W v0) as [Ha' _].
  rewrite (grows_background _ v0 (grows_draw_frame W)).
  split; congruence.
Qed.

(** X10. When the XML output of the frame exists but the parser raises
    an exception, [update_frame_data] returns normally: the scene is the
    caption, the placeholder sphere and the error text with the
    exception's message, which is also printed. *)
Theorem update_frame_data_parse_error (W : world) (v : viewer)
        (r : renderer_t) (e : exn) :
  renderer v = Some r ->
  path_exists W (xml_path v) = true ->
  pyMCDS_cells W (xml_file_root v) (output_dir v) = Raise e ->
  is_Exception e = true ->
  exists v',
    update_frame_data W v = (Ret tt, v') /\
    renderer v' =
      Some (Renderer [frame_text v; demo_sphere; error_text (exn_msg e)]
                     (background r)) /\
    trace v' =
      (trace v ++ [ PathExists (xml_path v);
                    ReadOutput (xml_file_root v) (output_dir v);
                    Console ("Error loading cell data: " ++ exn_msg e) ]
         ++ (if vtk_win v is Some _ then [Render] else []))%list.
Proof.
  intros Hr Hxml Hparse Hexc.
  destruct v as [od cf cc qw vw win rd ia ut tr]. cbn in Hr. subst rd.
  unfold xml_path, xml_file_root in *.
  cbn [output_dir current_frame] in *.
  unfold update_frame_data, load_and_display_cells, read_output,
    add_frame_info_text, add_error_text, create_demo_sphere,
    add_orientation_axes, render_if_window, try_except, exists_, AddActor,
    AddActor2D, add_prop, RemoveAllViewProps, print, modify, bind, self, ret.
  cbn -[fmt_08d str_of_int path_join String.append].
  rewrite Hxml.
  cbn -[fmt_08d str_of_int path_join String.append].
  rewrite Hparse.
  cbn -[fmt_08d str_of_int path_join String.append].
  rewrite Hexc.
  destruct win;
    cbn -[fmt_08d str_of_int path_join String.append];
    (eexists; split; [reflexivity|]);
    cbn -[fmt_08d str_of_int path_join String.append];
    rewrite <- ?app_assoc; done.
Qed.

(** ** The trace is write-only *)

Lemma erase_fields a b :
  erase_trace a = erase_trace b ->
  output_dir a = output_dir b /\ current_frame a = current_frame b /\
  cell_colors a = cell_colors b /\ vtk_win a = vtk_win b /\
  renderer a = renderer b.
Proof. destruct a, b. cbn. intros [= -> -> -> -> -> -> -> -> ->]. done. Qed.

Lemma erase_from_attributes a b :
  attributes a = attributes b -> renderer a = renderer b ->
  erase_trace a = erase_trace b.
Proof.
  destruct a, b. unfold attributes. cbn.
  intros [= -> -> -> -> -> -> -> ->] ->. done.
Qed.

Lemma alike_pure {A} (m : method A) :
  (forall v, (m v).2 = v) ->
  (forall v1 v2, erase_trace v1 = erase_trace v2 -> (m v1).1 = (m v2).1) ->
  alike m m.
Proof. intros H2 H1 v1 v2 Hv. rewrite !H2. split; [by apply H1|done]. Qed.

Lemma alike_ret {A} (a : A) : alike (ret a) (ret a).
Proof. by apply alike_pure. Qed.

Lemma alike_raise {A} (e : exn) : alike (@raise A e) (raise e).
Proof. by apply alike_pure. Qed.

Lemma alike_lift {A} (r : result A) : alike (lift r) (lift r).
Proof. by apply alike_pure. Qed.

Lemma alike_emit e : alike (modify (emit e)) (modify (emit e)).
Proof. intros v1 v2 Hv. split; [done|]. destruct v1, v2. exact Hv. Qed.

Lemma alike_exists_ W p : alike (exists_ W p) (exists_ W p).
Proof. intros v1 v2 Hv. split; [done|]. destruct v1, v2. exact Hv. Qed.

Lemma alike_read_output W root : alike (read_output W root) (read_output W root).
Proof.
  intros v1 v2 Hv. destruct (erase_fields _ _ Hv) as (Ho & _).
  unfold read_output. cbn [fst snd]. rewrite Ho. split; [done|].
  destruct v1, v2. exact Hv.
Qed.

Lemma alike_add_prop attr p : alike (add_prop attr p) (add_prop attr p).
Proof.
  intros v1 v2 Hv. destruct (erase_fields _ _ Hv) as (_ & _ & _ & _ & Hr).
  unfold add_prop. rewrite Hr. destruct (renderer v2); cbn [fst snd].
  - split; [done|]. destruct v1, v2. unfold erase_trace, set_renderer in *.
    cbn in *. injection Hv; intros; subst; done.
  - done.
Qed.

Lemma alike_bind {A B} (m1 m2 : method A) (k1 k2 : A -> method B) :
  alike m1 m2 -> (forall a, alike (k1 a) (k2 a)) ->
  alike (bind m1 k1) (bind m2 k2).
Proof.
  intros Hm Hk v1 v2 Hv. unfold bind. destruct (Hm v1 v2 Hv) as [H1 H2].
  destruct (m1 v1) as [[a|e] u1], (m2 v2) as [[b|e'] u2];
    cbn [fst snd] in *; try discriminate.
  - injection H1 as ->. by apply Hk.
  - injection H1 as ->. by split.
Qed.

Lemma alike_bind_self {B} (k1 k2 : viewer -> method B) :
  (forall a b, erase_trace a = erase_trace b -> alike (k1 a) (k2 b)) ->
  alike (bind self k1) (bind self k2).
Proof. intros Hk v1 v2 Hv. unfold bind, self. by apply Hk. Qed.

Lemma alike_try {A} (b1 b2 : method A) (h1 h2 : exn -> method A) :
  alike b1 b2 -> (forall e, alike (h1 e) (h2 e)) ->
  alike (try_except b1 h1) (try_except b2 h2).
Proof.
  intros Hb Hh v1 v2 Hv. unfold try_except. destruct (Hb v1 v2 Hv) as [H1 H2].
  destruct (b1 v1) as [[a|e] u1], (b2 v2) as [[b|e'] u2];
    cbn [fst snd] in *; try discriminate.
  - by split.
  - injection H1 as ->. destruct (is_Exception e'); [by apply Hh|by split].
Qed.

Ltac same_fields H :=
  let Ho := fresh in let Hc := fresh in let Hcc := fresh in
  let Hw := fresh in let Hr := fresh in
  destruct (erase_fields _ _ H) as (Ho & Hc & Hcc & Hw & Hr);
  rewrite ?Ho, ?Hc, ?Hcc, ?Hw, ?Hr; clear Ho Hc Hcc Hw Hr.

Ltac blind :=
  repeat first
    [ apply alike_ret | apply alike_raise | apply alike_lift
    | apply alike_emit | apply alike_exists_ | apply alike_read_output
    | apply alike_add_prop
    | match goal with
      | |- alike (bind self _) (bind self _) =>
          let Hab := fresh "Hab" in
          apply alike_bind_self; intros ? ? Hab; cbv beta; same_fields Hab
      end
    | apply alike_bind; [|intros ?]
    | apply alike_try; [|intros ?]
    | match goal with
      | |- alike (if ?b then _ else _) (if ?b then _ else _) => destruct b
      | |- alike (match ?o with _ => _ end) (match ?o with _ => _ end) =>
          destruct o
      end ].

Lemma alike_draw_frame W : alike (draw_frame W) (draw_frame W).
Proof.
  unfold draw_frame, after_caption, load_or_fallback, on_error,
    load_and_display_cells, try_svg_fallback, add_frame_info_text,
    add_error_text, create_demo_sphere, add_orientation_axes,
    render_if_window, AddActor, AddActor2D, print, xml_path, xml_file_root.
  blind.
Qed.

Lemma update_frame_data_some W v r :
  renderer v = Some r ->
  update_frame_data W v
  = draw_frame W (set_renderer (Some (Renderer [] (background r))) v).
Proof.
  intros Hr. rewrite update_frame_data_parts.
  unfold bind, RemoveAllViewProps. by rewrite Hr.
Qed.

Lemma update_frame_data_none W v :
  renderer v = None ->
  update_frame_data W v = (Raise (none_has_no "RemoveAllViewProps"), v).
Proof.
  intros Hr. rewrite update_frame_data_parts.
  unfold bind, RemoveAllViewProps. by rewrite Hr.
Qed.

(** X11. Redrawing is idempotent on the scene: a second
    [update_frame_data] right after the first ends the same way and
    leaves the same renderer, props included; nothing of the first scene
    accumulates. *)
Theorem update_frame_data_twice (W : world) (v : viewer) :
  (update_frame_data W (update_frame_data W v).2).1 = (update_frame_data W v).1 /\
  renderer (update_frame_data W (update_frame_data W v).2).2
  = renderer (update_frame_data W v).2.
Proof.
  destruct (renderer v) as [r|] eqn:Hr.
  2:{ rewrite (update_frame_data_none W v Hr). cbn [fst snd].
      by rewrite (update_frame_data_none W v Hr). }
  rewrite (update_frame_data_some W v r Hr).
  set (v0 := set_renderer (Some (Renderer [] (background r))) v).
  assert (Hr0 : renderer v0 = Some (Renderer [] (background r)))
    by (subst v0; by destruct v).
  destruct (grows_draw_frame W v0) as [Hattr Hgrow].
  rewrite Hr0 in Hgrow. destruct Hgrow as [ps Hr1]. cbn in Hr1.
  set (v1 := (draw_frame W v0).2) in *.
  rewrite (update_frame_data_some W v1 _ Hr1). cbn [background].
  assert (Herase :
    erase_trace (set_renderer (Some (Renderer [] (background r))) v1)
    = erase_trace v0).
  { apply erase_from_attributes.
    - rewrite <- Hattr. by destruct v1.
    - rewrite Hr0. by destruct v1. }
  destruct (alike_draw_frame W _ _ Herase) as [H1 H2].
  split; [exact H1|].
  apply (f_equal renderer) in H2. fold v1 in H2. revert H2. clear.
  by destruct (draw_frame W _).2, v1.
Qed.

(** ** Switching frames, opening and closing *)

(** X12. On a viewer with a renderer, asking for another frame returns
    normally (the parser being well-behaved): [current_frame] is the
    requested number, the title of the Qt window (or, without one, the
    name of the render window) is that of the frame, and the scene starts
    with the caption of the new frame. *)
Theorem set_current_frame_switch (W : world) (v : viewer) (r : renderer_t)
        (n : Z) :
  well_behaved W -> renderer v = Some r -> n <> current_frame v ->
  exists v' ps,
    set_current_frame W n v = (Ret tt, v') /\
    current_frame v' = n /\
    renderer v' =
      Some (Renderer
              (TextActor ("CURRENT FRAME: " ++ str_of_int n) 24 yellow (100, 30)
                 :: ps)
              (background r)) /\
    qt_window v' =
      (if qt_window v is Some q
       then Some (QtWindow (window_title n) (shown q)) else None) /\
    vtk_win v' =
      match qt_window v, vtk_win v with
      | None, Some _ => Some (RenderWindow (Some (window_title n)))
      | _, w => w
      end /\
    output_dir v' = output_dir v /\ cell_colors v' = cell_colors v /\
    update_timer v' = update_timer v.
Proof.
  intros HW Hr Hn.
  destruct v as [od cf cc qw vw win rd ia ut tr]. cbn in Hr, Hn. subst rd.
  unfold set_current_frame, bind at 1, self.
  cbn [current_frame fst snd].
  replace (cf =? n) with false by (symmetry; apply Z.eqb_neq; congruence).
  unfold bind at 1, modify, set_current_frame_attr.
  unfold bind at 1, print, modify, emit.
  cbn [output_dir current_frame cell_colors qt_window vtk_widget vtk_win
       renderer interactor update_timer trace].
  unfold bind at 1.
  destruct qw as [q|]; [|destruct win as [w|]];
    cbn [qt_window vtk_win modify ret set_qt_window set_vtk_win output_dir
         current_frame cell_colors vtk_widget renderer interactor
         update_timer trace];
    match goal with
    | |- context [update_frame_data W ?x] =>
        destruct (update_frame_data_returns W x r HW eq_refl)
          as (v' & ps & Hrun & Hscene & Hattr)
    end;
    rewrite Hrun; exists v', ps; (split; [done|]);
    destruct v'; unfold attributes, frame_text in *; cbn in *;
    injection Hattr; intros; subst; done.
Qed.

(** X13. On a viewer without a renderer (never opened, or closed),
    asking for another frame raises [AttributeError], but only after
    [current_frame] was set to the requested number: the same request,
    made again, returns at once. *)
Theorem set_current_frame_without_renderer (W : world) (v : viewer) (n : Z) :
  renderer v = None -> n <> current_frame v ->
  exists v',
    set_current_frame W n v = (Raise (none_has_no "RemoveAllViewProps"), v') /\
    current_frame v' = n /\
    set_current_frame W n v' = (Ret tt, v').
Proof.
  intros Hr Hn.
  destruct v as [od cf cc qw vw win rd ia ut tr]. cbn in Hr, Hn. subst rd.
  unfold set_current_frame, bind at 1, self.
  cbn [current_frame fst snd].
  replace (cf =? n) with false by (symmetry; apply Z.eqb_neq; congruence).
  unfold bind at 1, modify, set_current_frame_attr.
  unfold bind at 1, print, modify, emit.
  cbn [output_dir current_frame cell_colors qt_window vtk_widget vtk_win
       renderer interactor update_timer trace].
  unfold bind at 1.
  destruct qw as [q|]; [|destruct win as [w|]];
    cbn [qt_window vtk_win modify ret set_qt_window set_vtk_win output_dir
         current_frame cell_colors vtk_widget renderer interactor
         update_timer trace];
    (rewrite update_frame_data_none by reflexivity);
    (eexists; split; [reflexivity|]); (split; [reflexivity|]);
    unfold bind, self; cbn [current_frame]; by rewrite Z.eqb_refl.
Qed.

(** X14. [open_window] returns normally on every viewer (the parser
    being well-behaved): afterwards the viewer has a shown Qt window
    titled with its frame, a render window, an interactor, an active
    500 ms timer, and a renderer with the dark blue background whose
    scene starts with the frame caption and ends with the help text. *)
Theorem open_window_opens (W : world) (v : viewer) :
  well_behaved W ->
  exists v' ps,
    open_window W v = (Ret tt, v') /\
    renderer v' =
      Some (Renderer (frame_text v :: ps ++ [help_text]) (Some dark_blue)) /\
    qt_window v' = Some (QtWindow (window_title (current_frame v)) true) /\
    vtk_win v' = Some (RenderWindow None) /\
    vtk_widget v' = true /\ interactor v' = true /\
    update_timer v' = Some (Timer 500 true) /\
    output_dir v' = output_dir v /\ current_frame v' = current_frame v /\
    cell_colors v' = cell_colors v.
Proof.
  intros HW. destruct v as [od cf cc qw vw win rd ia ut tr].
  unfold open_window. unfold bind at 1, self.
  do 5 (unfold bind at 1, modify; cbn [fst snd]).
  unfold set_qt_window, set_vtk_widget, set_vtk_win, set_interactor,
    set_renderer.
  cbn [output_dir current_frame cell_colors qt_window vtk_widget vtk_win
       renderer interactor update_timer trace].
  unfold bind at 1.
  match goal with
  | |- context [update_frame_data W ?x] =>
      destruct (update_frame_data_returns W x (Renderer [] None) HW eq_refl)
        as (v' & ps & Hrun & Hscene & Hattr)
  end.
  rewrite Hrun. destruct v' as [od' cf' cc' qw' vw' win' rd' ia' ut' tr'].
  unfold attributes, frame_text in *. cbn in Hscene, Hattr.
  injection Hattr; intros; subst.
  unfold AddActor2D, add_prop, SetBackground, add_orientation_axes, bind,
    modify, self, ret.
  cbn -[String.append str_of_int window_title].
  eexists. exists ps. split; [reflexivity|]. cbn. done.
Qed.

(** X15. [close] never raises: it stops the timer, hides the Qt window
    and drops render window, renderer and interactor, leaving frame
    number and trace alone.  Closing again changes nothing, and every
    later [update_frame_data] raises [AttributeError]. *)
Theorem close_effect (v : viewer) :
  exists v',
    close v = (Ret tt, v') /\
    renderer v' = None /\ vtk_win v' = None /\ interactor v' = false /\
    update_timer v' =
      (if update_timer v is Some t
       then Some (Timer (interval t) false) else None) /\
    qt_window v' =
      (if qt_window v is Some q then Some (QtWindow (title q) false) else None) /\
    current_frame v' = current_frame v /\ trace v' = trace v /\
    close v' = (Ret tt, v') /\
    forall W,
      update_frame_data W v' = (Raise (none_has_no "RemoveAllViewProps"), v').
Proof.
  destruct v as [od cf cc qw vw win rd ia ut tr].
  eexists. split; [reflexivity|]. cbn.
  repeat (split; [reflexivity|]).
  split; [by destruct ut as [[]|], qw as [[]|]|].
  intros W. reflexivity.
Qed.

(** ** Loading a frame *)

Lemma fill_arrays_app table l1 l2 g :
  fill_arrays table (l1 ++ l2) g
  = rbind (fill_arrays table l1 g) (fill_arrays table l2).
Proof.
  revert g. induction l1 as [|[[c z] radius] l1 IH]; intros g; [done|].
  cbn [app fill_arrays]. unfold rbind at 1 3.
  destruct (cell_color table (cell_type c)); [apply IH|done].
Qed.

Lemma loop_input_colors W df table :
  Forall (fun c => exists col, cell_color table (cell_type c) = Ret col)
         (rows df) ->
  Forall (fun x => exists col, cell_color table (cell_type x.1.1) = Ret col)
         (loop_input W df).
Proof. intros H. unfold loop_input. by apply Forall_fmap. Qed.

(** X16. When the parser raises, or the colour of some cell cannot be
    computed (the exception is that of the first such cell),
    [load_and_display_cells] raises that exception before it has drawn
    anything: the viewer is as before, the trace apart. *)
Theorem load_and_display_cells_fails_clean (W : world) (root : string)
        (v : viewer) (e : exn) :
  pyMCDS_cells W root (output_dir v) = Raise e \/
  (exists m good c rest,
      pyMCDS_cells W root (output_dir v) = Ret m /\
      rows (get_cell_df m) = (good ++ c :: rest)%list /\
      Forall (fun x => exists col,
                  cell_color (cell_colors v) (cell_type x) = Ret col) good /\
      cell_color (cell_colors v) (cell_type c) = Raise e) ->
  load_and_display_cells W root v
  = (Raise e, emit (ReadOutput root (output_dir v)) v).
Proof.
  intros [Hparse|(m & good & c & rest & Hparse & Hrows & Hgood & Hbad)];
    unfold load_and_display_cells, read_output, bind at 1; rewrite Hparse;
    [done|].
  unfold bind at 1, self. unfold bind at 1, lift.
  assert (Hfill :
    fill_arrays (cell_colors v) (loop_input W (get_cell_df m))
                (GlyphData [] [] []) = Raise e).
  { unfold loop_input. rewrite Hrows, map_app. cbn [map].
    rewrite fill_arrays_app.
    destruct (fill_arrays_total (cell_colors v)
                (map (fun c0 => (c0, if has_position_z (get_cell_df m)
                                     then position_z c0 else 0%float,
                                 cell_radius W c0)) good)
                (GlyphData [] [] [])) as [g ->].
    { by apply Forall_fmap. }
    cbn [rbind fill_arrays fst snd]. cbn in Hbad. by rewrite Hbad. }
  cbn [cell_colors emit]. destruct v. cbn in *. by rewrite Hfill.
Qed.

(** X17. With a renderer, a parsed frame, a colour for every cell and a
    time that converts, [load_and_display_cells] returns normally: it
    adds the glyph actor with one colour per cell, the file name and the
    frame line, in this order, and prints the number of cells. *)
Theorem load_and_display_cells_returns (W : world) (root : string)
        (v : viewer) (r : renderer_t) (m : mcds) (ts : string) :
  renderer v = Some r ->
  pyMCDS_cells W root (output_dir v) = Ret m ->
  Forall (fun c => exists col,
              cell_color (cell_colors v) (cell_type c) = Ret col)
         (rows (get_cell_df m)) ->
  time_str (get_time m) = Ret ts ->
  exists v' points colors sizes,
    load_and_display_cells W root v = (Ret tt, v') /\
    length colors = length (rows (get_cell_df m)) /\
    renderer v' =
      Some (Renderer
              (props r ++
                 [ GlyphActor points colors sizes;
                   xml_file_text root;
                   TextActor
                     ("PhysiCell Frame " ++ str_of_int (current_frame v)
                        ++ " - " ++ pretty (length (rows (get_cell_df m)))
                        ++ " cells - " ++ ts)
                     16 white (20, 30) ])
              (background r)) /\
    trace v' =
      (trace v ++
         [ ReadOutput root (output_dir v);
           Console ("Loaded " ++ pretty (length (rows (get_cell_df m)))
                      ++ " cells from frame " ++ str_of_int (current_frame v)) ])%list.
Proof.
  intros Hr Hparse Hcols Hts.
  destruct (fill_arrays_total (cell_colors v) (loop_input W (get_cell_df m))
              (GlyphData [] [] []) (loop_input_colors W _ _ Hcols))
    as [g Hfill].
  destruct (fill_arrays_ok _ _ _ _ Hfill) as (cols & Hall & Hc & _).
  destruct v as [od cf cc qw vw win rd ia ut tr]. cbn in Hr, Hparse, Hfill.
  subst rd.
  exists (set_renderer
            (Some (Renderer
                     (props r ++
                        [ GlyphActor (g_points g) (g_colors g) (g_sizes g);
                          xml_file_text root;
                          TextActor
                            ("PhysiCell Frame " ++ str_of_int cf
                               ++ " - " ++ pretty (length (rows (get_cell_df m)))
                               ++ " cells - " ++ ts)
                            16 white (20, 30) ])
                     (background r)))
            (Viewer od cf cc qw vw win (Some r) ia ut
                    (tr ++ [ ReadOutput root od;
                             Console ("Loaded "
                                        ++ pretty (length (rows (get_cell_df m)))
                                        ++ " cells from frame "
                                        ++ str_of_int cf) ]))),
    (g_points g), (g_colors g), (g_sizes g).
  split.
  { unfold load_and_display_cells, read_output, AddActor, AddActor2D, add_prop,
      print, modify, lift, bind, self.
    cbn -[fill_arrays time_str loop_input str_of_int pretty String.append].
    rewrite Hparse.
    cbn -[fill_arrays time_str loop_input str_of_int pretty String.append].
    rewrite Hfill.
    cbn -[fill_arrays time_str loop_input str_of_int pretty String.append].
    rewrite Hts.
    cbn -[fill_arrays time_str loop_input str_of_int pretty String.append].
    unfold xml_file_text, emit, set_renderer.
    cbn [output_dir current_frame cell_colors qt_window vtk_widget vtk_win
         renderer interactor update_timer trace].
    by rewrite <- !app_assoc. }
  split; [|done].
  rewrite Hc. cbn. apply Forall2_length in Hall. rewrite length_map, <- Hall.
  unfold loop_input. by rewrite length_map.
Qed.

(** X18. When [load_and_display_cells] returns, the glyph actor has one
    point and one size per row, in row order, each number as the VTK
    array keeps it, a binary32: the point is the row's position, with z
    taken as 0 when the data frame has no [position_z] column, and the
    size is [np_power] of the row's volume divided by 4.188790204786391,
    to the exponent 0.333.... *)
Theorem load_and_display_cells_geometry (W : world) (root : string)
        (v v' : viewer) :
  load_and_display_cells W root v = (Ret tt, v') ->
  exists m r points colors sizes,
    pyMCDS_cells W root (output_dir v) = Ret m /\
    renderer v' = Some r /\
    GlyphActor points colors sizes ∈ props r /\
    points =
      map (fun c => (to_float32 (position_x c), to_float32 (position_y c),
                     to_float32 (if has_position_z (get_cell_df m)
                                 then position_z c else 0%float)))
          (rows (get_cell_df m)) /\
    sizes =
      map (fun c =>
             to_float32
               (np_power W (total_volume c / 4.188790204786391)%float
                  0.333333333333333333333333333333333333333%float))
          (rows (get_cell_df m)).
Proof.
  intros (m & g & r & ts & Hm & Hfill & _ & _ & Hr')%load_and_display_cells_ok.
  apply fill_arrays_ok in Hfill as (cols & _ & _ & Hs & Hp).
  cbn in Hs, Hp.
  eexists m, _, (g_points g), (g_colors g), (g_sizes g).
  split; [done|]. split; [exact Hr'|].
  split; [cbn; set_solver|].
  rewrite Hs, Hp. unfold loop_input. rewrite !map_map. done.
Qed.

Lemma cell_color_empty ct col :
  cell_color [] ct = Ret col -> 0 <= ct /\ col = default_gray.
Proof.
  unfold cell_color.
  change (Z.of_nat (length (@nil (list float)))) with 0.
  destruct (ct <? 0) eqn:Hct.
  - rewrite getitem_below by (cbn; apply Z.ltb_lt in Hct; lia).
    cbn [rbind]. discriminate.
  - apply Z.ltb_ge in Hct. by intros [= <-].
Qed.

(** X19. On a viewer without colour table ([cell_colors] empty, as the
    constructor leaves it when given none), every cell that
    [load_and_display_cells] renders is light gray (180, 180, 180), and
    a frame is rendered only if no cell type is negative. *)
Theorem load_and_display_cells_no_colors (W : world) (root : string)
        (v v' : viewer) :
  cell_colors v = [] ->
  load_and_display_cells W root v = (Ret tt, v') ->
  exists m r points colors sizes,
    pyMCDS_cells W root (output_dir v) = Ret m /\
    renderer v' = Some r /\
    GlyphActor points colors sizes ∈ props r /\
    colors = replicate (length (rows (get_cell_df m))) default_gray /\
    Forall (fun c => 0 <= cell_type c) (rows (get_cell_df m)).
Proof.
  intros Hcc (m & g & r & ts & Hm & Hfill & _ & _ & Hr')%load_and_display_cells_ok.
  rewrite Hcc in Hfill.
  apply fill_arrays_ok in Hfill as (cols & Hall & Hc & _). cbn in Hc.
  eexists m, _, (g_points g), (g_colors g), (g_sizes g).
  split; [done|]. split; [exact Hr'|].
  split; [cbn; set_solver|].
  rewrite Hc. unfold loop_input in Hall. clear -Hall.
  revert cols Hall. induction (rows (get_cell_df m)) as [|c l IH];
    intros cols Hall.
  - apply Forall2_nil_inv_l in Hall as ->. by split.
  - cbn [map] in Hall.
    apply Forall2_cons_inv_l in Hall as (col & cols' & Hcol & Hall & ->).
    cbn in Hcol. apply cell_color_empty in Hcol as [Hct ->].
    destruct (IH cols' Hall) as [Heq Hpos]. cbn [map length replicate].
    rewrite Heq. split; [done|]. by constructor.
Qed.

(** ** The properties on the sample viewers *)

Import Samples.

Lemma two_frames_well_behaved : well_behaved two_frames.
Proof.
  intros root dir e. unfold two_frames. cbn [pyMCDS_cells].
  repeat case_match; intros Hraise; try discriminate;
    by injection Hraise as <-.
Qed.

Lemma update_frame_data_never_raises_witness :
  exists v' ps,
    update_frame_data two_frames opened = (Ret tt, v') /\
    renderer v' =
      Some (Renderer (frame_text opened :: ps)
                     (background (default (Renderer [] None) (renderer opened)))).
Proof.
  apply (update_frame_data_never_raises two_frames opened
           (default (Renderer [] None) (renderer opened))
           two_frames_well_behaved).
  vm_compute. reflexivity.
Defined.

Lemma update_frame_data_parse_error_witness :
  exists v',
    update_frame_data corrupt_frame opened_one_color = (Ret tt, v') /\
    renderer v' =
      Some (Renderer [ frame_text opened_one_color; demo_sphere;
                       error_text "not well-formed" ]
                     (Some dark_blue)).
Proof.
  destruct (update_frame_data_parse_error corrupt_frame opened_one_color
              (default (Renderer [] None) (renderer opened_one_color))
              (Exn OtherException "not well-formed"))
    as (v' & Hrun & Hscene & _); [vm_compute; reflexivity..|].
  exists v'. split; [exact Hrun|exact Hscene].
Defined.

Lemma set_current_frame_switch_witness :
  exists v' ps,
    set_current_frame two_frames 4 opened = (Ret tt, v') /\
    current_frame v' = 4 /\
    renderer v' =
      Some (Renderer
              (TextActor "CURRENT FRAME: 4" 24 yellow (100, 30) :: ps)
              (Some dark_blue)) /\
    qt_window v' = Some (QtWindow "PhysiCell VTK Viewer - Frame 4" true).
Proof.
  destruct (set_current_frame_switch two_frames opened
              (default (Renderer [] None) (renderer opened)) 4
              two_frames_well_behaved)
    as (v' & ps & Hrun & Hf & Hscene & Hq & _);
    [vm_compute; reflexivity|vm_compute; discriminate|].
  exists v', ps. split; [exact Hrun|]. split; [exact Hf|].
  split; [exact Hscene|exact Hq].
Defined.

Lemma set_current_frame_without_renderer_witness :
  exists v',
    set_current_frame no_files 1 unopened
    = (Raise (none_has_no "RemoveAllViewProps"), v') /\
    current_frame v' = 1 /\
    set_current_frame no_files 1 v' = (Ret tt, v').
Proof.
  apply (set_current_frame_without_renderer no_files unopened 1).
  - vm_compute. reflexivity.
  - vm_compute. discriminate.
Defined.

Lemma open_window_opens_witness :
  exists v' ps,
    open_window two_frames unopened = (Ret tt, v') /\
    renderer v' =
      Some (Renderer (frame_text unopened :: ps ++ [help_text])
                     (Some dark_blue)) /\
    qt_window v' = Some (QtWindow (window_title 0) true).
Proof.
  destruct (open_window_opens two_frames unopened two_frames_well_behaved)
    as (v' & ps & Hrun & Hscene & Hq & _).
  exists v', ps. split; [exact Hrun|]. split; [exact Hscene|exact Hq].
Defined.

Lemma load_and_display_cells_fails_clean_witness :
  load_and_display_cells two_frames "output00000005.xml" opened_one_color
  = (Raise (Exn IndexError "list index out of range"),
     emit (ReadOutput "output00000005.xml" "out") opened_one_color).
Proof.
  apply (load_and_display_cells_fails_clean two_frames "output00000005.xml"
           opened_one_color).
  right.
  exists (MCDS (CellDf false [ Cell 1 2 3 8 (-2) ]) 0), [],
    (Cell 1 2 3 8 (-2)), [].
  split; [vm_compute; reflexivity|]. split; [reflexivity|].
  split; [constructor|]. vm_compute. reflexivity.
Defined.

Lemma load_and_display_cells_returns_witness :
  exists v' points colors sizes,
    load_and_display_cells one_frame "output00000000.xml" opened_no_colors
    = (Ret tt, v') /\
    length colors = 2%nat /\
    In (GlyphActor points colors sizes)
       (props (default (Renderer [] None) (renderer v'))).
Proof.
  destruct (load_and_display_cells_returns one_frame "output00000000.xml"
              opened_no_colors
              (default (Renderer [] None) (renderer opened_no_colors))
              (MCDS (CellDf true [ Cell 1 2 3 8 0; Cell 4 5 6 8 2 ]) 90)
              "0d, 1h, 30m")
    as (v' & points & colors & sizes & Hrun & Hlen & Hscene & _).
  - vm_compute. reflexivity.
  - vm_compute. reflexivity.
  - repeat constructor; eexists; vm_compute; reflexivity.
  - vm_compute. reflexivity.
  - exists v', points, colors, sizes. split; [exact Hrun|].
    split; [exact Hlen|]. rewrite Hscene. cbn [default props].
    apply in_or_app. right. by left.
Defined.

Lemma load_and_display_cells_geometry_witness :
  exists r points colors sizes,
    renderer (load_and_display_cells one_frame "output00000000.xml"
                opened_no_colors).2 = Some r /\
    GlyphActor points colors sizes ∈ props r /\
    points = [ (1, 2, 3); (4, 5, 6) ]%float /\
    sizes = [ 1.909859299659729; 1.909859299659729 ]%float.
Proof.
  destruct (load_and_display_cells_geometry one_frame "output00000000.xml"
              opened_no_colors
              (load_and_display_cells one_frame "output00000000.xml"
                 opened_no_colors).2)
    as (m & r & points & colors & sizes & Hm & Hr & Hin & Hp & Hs);
    [vm_compute; reflexivity|].
  vm_compute in Hm. injection Hm as <-.
  exists r, points, colors, sizes.
  split; [exact Hr|]. split; [exact Hin|].
  split; [rewrite Hp|rewrite Hs]; vm_compute; reflexivity.
Defined.

Lemma load_and_display_cells_no_colors_witness :
  exists m r points colors sizes,
    pyMCDS_cells one_frame "output00000000.xml" (output_dir opened_no_colors)
    = Ret m /\
    renderer (load_and_display_cells one_frame "output00000000.xml"
                opened_no_colors).2 = Some r /\
    GlyphActor points colors sizes ∈ props r /\
    colors = replicate (length (rows (get_cell_df m))) default_gray /\
    Forall (fun c => 0 <= cell_type c) (rows (get_cell_df m)).
Proof.
  apply (load_and_display_cells_no_colors one_frame "output00000000.xml"
           opened_no_colors).
  - vm_compute. reflexivity.
  - vm_compute. reflexivity.
Defined.

End ViewerRuns.
